(** * phone.validator.ai: a shallow embedding of [PhoneValidator]

    The program places one recorded call per phone number of an input
    table, transcribes the recording and classifies the number from the
    transcript.  Its collaborators (environment, Twilio, the speech
    service, the file system, the clock) are an interface [Collaborators]
    over an abstract state; the methods of [PhoneValidator] are programs
    of a state-and-exception monad over that state and a trace of the
    observable effects (log records, sleeps, writes to the output table). *)

From Stdlib Require Import Ascii String DecimalString List NArith ZArith Bool Lia.
Import ListNotations.

(** ** Python [str] values

    A [str] is a sequence of Unicode code points.  Literals of the source
    are written as UTF-8 text and decoded by [u]. *)

Module PyStr.

Local Open Scope N_scope.

Definition pystr := list N.

(** UTF-8 decoding of a literal: [need] continuation bytes are still
    expected for the code point accumulated in [acc]. *)
Fixpoint utf8_go (need : nat) (acc : N) (bs : list N) : pystr :=
  match bs with
  | [] => []
  | b :: bs' =>
      match need with
      | O =>
          if b <? 128 then b :: utf8_go 0 0 bs'
          else if b <? 224 then utf8_go 1 (b - 192) bs'
          else if b <? 240 then utf8_go 2 (b - 224) bs'
          else utf8_go 3 (b - 240) bs'
      | S O => (acc * 64 + (b - 128)) :: utf8_go 0 0 bs'
      | S n => utf8_go n (acc * 64 + (b - 128)) bs'
      end
  end.

Definition u (s : string) : pystr :=
  utf8_go 0 0 (map N_of_ascii (list_ascii_of_string s)).

Definition cp_eqb : N -> N -> bool := N.eqb.

Fixpoint eqb (a b : pystr) : bool :=
  match a, b with
  | [], [] => true
  | x :: a', y :: b' => cp_eqb x y && eqb a' b'
  | _, _ => false
  end.

(** Truth value of a [str]: the empty string is false. *)
Definition truthy (s : pystr) : bool :=
  match s with [] => false | _ :: _ => true end.

(** Truth value of an optional [str] ([None] or a [str]). *)
Definition truthy_opt (o : option pystr) : bool :=
  match o with None => false | Some s => truthy s end.

(** [str.lower] on one code point: Basic Latin, the Cyrillic capitals
    U+0400..U+042F and U+0490 (the alphabets of the transcripts and of the
    denylist).  Every other code point is kept, where [str.lower] changes
    more of them and lengthens U+0130: outside these alphabets [lower] is
    not [str.lower]. *)
Definition lower_cp (c : N) : N :=
  if (65 <=? c) && (c <=? 90) then c + 32
  else if (1040 <=? c) && (c <=? 1071) then c + 32
  else if (1024 <=? c) && (c <=? 1039) then c + 80
  else if c =? 1168 then 1169
  else c.

Definition lower (s : pystr) : pystr := map lower_cp s.

(** [str.isspace] on one code point. *)
Definition is_space (c : N) : bool :=
  ((9 <=? c) && (c <=? 13)) || ((28 <=? c) && (c <=? 32))
  || (c =? 133) || (c =? 160) || (c =? 5760)
  || ((8192 <=? c) && (c <=? 8202))
  || (c =? 8232) || (c =? 8233) || (c =? 8239) || (c =? 8287)
  || (c =? 12288).

Fixpoint lstrip (s : pystr) : pystr :=
  match s with
  | [] => []
  | c :: s' => if is_space c then lstrip s' else s
  end.

Definition rstrip (s : pystr) : pystr := rev (lstrip (rev s)).

(** [s.strip()] *)
Definition strip (s : pystr) : pystr := rstrip (lstrip s).

Fixpoint starts_with (p s : pystr) : bool :=
  match p, s with
  | [], _ => true
  | _ :: _, [] => false
  | x :: p', y :: s' => cp_eqb x y && starts_with p' s'
  end.

(** [p in s]: [p] occurs in [s] as a substring. *)
Fixpoint contains (p s : pystr) : bool :=
  starts_with p s ||
  match s with
  | [] => false
  | _ :: s' => contains p s'
  end.

(** [s.replace(old, new)] for a non-empty [old]: occurrences are replaced
    from the left, without overlap; [skip] code points of an occurrence
    already replaced are still to be dropped. *)
Fixpoint replace_go (old new : pystr) (skip : nat) (s : pystr) : pystr :=
  match s with
  | [] => []
  | c :: s' =>
      match skip with
      | S k => replace_go old new k s'
      | O =>
          if starts_with old s
          then new ++ replace_go old new (pred (length old)) s'
          else c :: replace_go old new 0 s'
      end
  end.

Definition replace (old new s : pystr) : pystr :=
  match old with
  | [] => s
  | _ :: _ => replace_go old new 0 s
  end.

(** [sep.join(parts)] *)
Fixpoint join (sep : pystr) (parts : list pystr) : pystr :=
  match parts with
  | [] => []
  | [p] => p
  | p :: rest => p ++ sep ++ join sep rest
  end.

(** [s[:n]] *)
Definition slice_to (n : nat) (s : pystr) : pystr := firstn n s.

(** [str(n)] of a natural number. *)
Definition str_of_nat (n : nat) : pystr :=
  u (NilEmpty.string_of_uint (Nat.to_uint n)).

End PyStr.

Import PyStr.

Arguments u : simpl never.
Arguments str_of_nat : simpl never.

(** ** Exceptions, effects and the monad of the methods *)

(** The exception classes the program distinguishes or meets.  All are
    subclasses of [Exception]; [OtherException] stands for every other
    subclass.  An exception carries its [str()] text, which the handlers
    interpolate into log messages. *)
Inductive exn_class :=
| FileNotFoundError
| TwilioRestException
| TwilioException
| AttributeError
| ValueError
| OtherException.

Record exn := Exn { exn_cls : exn_class; exn_str : pystr }.

Inductive outcome (A : Type) :=
| Return (a : A)
| Raise (e : exn).
Arguments Return {A} a.
Arguments Raise {A} e.

Inductive Status := VALID | INVALID | ERROR.

Definition status_str (s : Status) : pystr :=
  match s with
  | VALID => u "VALID"
  | INVALID => u "INVALID"
  | ERROR => u "ERROR"
  end.

(** The dictionary [validate_phone_number] returns. *)
Record ValidationResult := {
  phone : pystr;
  status : Status;
  transcribed_text : pystr;
  call_sid : option pystr;
  timestamp : pystr
}.

Inductive level := LInfo | LError.

(** Observable effects, in the order the program performs them.  An
    operation on the output file is recorded once it has succeeded. *)
Inductive event :=
| Log (l : level) (msg : pystr)
| Sleep (seconds : nat)
| OpenOutput (path : pystr)
| WriteHeader (path : pystr) (fieldnames : list pystr)
| WriteRow (path : pystr) (row : ValidationResult)
| Flush (path : pystr).

(** Arguments of [twilio_client.calls.create]. *)
Record call_request := {
  to : pystr;
  from_ : option pystr;
  url : pystr;
  record : bool;
  recording_channels : pystr;
  recording_status_callback_event : list pystr;
  timeout : nat;
  method : pystr
}.

(** What [csv.reader] yields from an opened file: the records read, then
    possibly an exception raised while reading on. *)
Record csv_source := {
  csv_records : list (list pystr);
  csv_failure : option exn
}.

(** The collaborators of the program, over their state [W]. *)
Class Collaborators (W : Type) := {
  os_getenv : pystr -> W -> option pystr;
  twilio_Client : option pystr -> option pystr -> W -> outcome unit * W;
  open_csv : pystr -> W -> outcome csv_source * W;
  calls_create : call_request -> W -> outcome pystr * W;
  recordings_list : pystr -> nat -> W -> outcome (list pystr) * W;
  recordings_fetch : pystr -> W -> outcome pystr * W;
  requests_get :
    pystr -> option pystr * option pystr -> W -> outcome (nat * list N) * W;
  write_binary : pystr -> list N -> W -> outcome unit * W;
  os_path_exists : pystr -> W -> bool;
  open_binary : pystr -> W -> outcome (list N) * W;
  audio_transcribe :
    pystr -> list N -> pystr -> W -> outcome (option pystr) * W;
  os_remove : pystr -> W -> outcome unit * W;
  datetime_now_isoformat : W -> pystr * W;
  open_output : pystr -> W -> outcome unit * W;
  writer_writeheader : pystr -> list pystr -> W -> outcome unit * W;
  writer_writerow : pystr -> ValidationResult -> W -> outcome unit * W;
  file_flush : pystr -> W -> outcome unit * W
}.

Module Eff.

(** A method run from a state of the collaborators gives an outcome, the
    state reached and the events performed. *)
Definition M (W A : Type) : Type := W -> outcome A * W * list event.

Definition ret {W A} (a : A) : M W A := fun w => (Return a, w, []).

Definition raise {W A} (e : exn) : M W A := fun w => (Raise e, w, []).

Definition bind {W A B} (m : M W A) (f : A -> M W B) : M W B :=
  fun w =>
    match m w with
    | (Return a, w1, t1) =>
        match f a w1 with
        | (r, w2, t2) => (r, w2, t1 ++ t2)
        end
    | (Raise e, w1, t1) => (Raise e, w1, t1)
    end.

(** [try: m  except ...: handler e] *)
Definition try_except {W A} (m : M W A) (handler : exn -> M W A) : M W A :=
  fun w =>
    match m w with
    | (Return a, w1, t1) => (Return a, w1, t1)
    | (Raise e, w1, t1) =>
        match handler e w1 with
        | (r, w2, t2) => (r, w2, t1 ++ t2)
        end
    end.

Definition emit {W} (e : event) : M W unit := fun w => (Return tt, w, [e]).

(** A call to a collaborator that may raise. *)
Definition call {W A} (op : W -> outcome A * W) : M W A :=
  fun w => match op w with (r, w1) => (r, w1, []) end.

(** A call to a collaborator that cannot raise. *)
Definition call_total {W A} (op : W -> A * W) : M W A :=
  fun w => match op w with (a, w1) => (Return a, w1, []) end.

(** Reading the state of a collaborator. *)
Definition ask {W A} (q : W -> A) : M W A := fun w => (Return (q w), w, []).

Definition lift {W A} (r : outcome A) : M W A := fun w => (r, w, []).

End Eff.

Import Eff.

Declare Scope eff_scope.
Delimit Scope eff_scope with eff.
Notation "x <- m ;; k" := (bind m (fun x => k))
  (at level 61, m at next level, right associativity) : eff_scope.
Notation "m ;;; k" := (bind m (fun _ => k))
  (at level 61, right associativity) : eff_scope.
Local Open Scope eff_scope.

Definition logger_info {W} (msg : pystr) : M W unit := emit (Log LInfo msg).
Definition logger_error {W} (msg : pystr) : M W unit := emit (Log LError msg).
Definition time_sleep {W} (seconds : nat) : M W unit := emit (Sleep seconds).

(** The operations of [process_phone_list] on the output file.  None of
    them sits in a [try]: an exception of the file system leaves the
    method. *)
Section OutputFile.

Context {W : Type} `{Collaborators W}.

(** [open(output_csv, 'w', newline='', encoding='utf-8')] *)
Definition open_for_writing (output_csv : pystr) : M W unit :=
  call (open_output output_csv) ;;; emit (OpenOutput output_csv).

(** [writer.writeheader()] *)
Definition writeheader (output_csv : pystr) (fieldnames : list pystr)
  : M W unit :=
  call (writer_writeheader output_csv fieldnames) ;;;
  emit (WriteHeader output_csv fieldnames).

(** [writer.writerow(result)] *)
Definition writerow (output_csv : pystr) (result : ValidationResult)
  : M W unit :=
  call (writer_writerow output_csv result) ;;;
  emit (WriteRow output_csv result).

(** [csvfile.flush()] *)
Definition flush (output_csv : pystr) : M W unit :=
  call (file_flush output_csv) ;;; emit (Flush output_csv).

End OutputFile.

(** ** Rows of [csv.DictReader] *)

Module Csv.

(** A value of a row dictionary: a field, [None] (the [restval] of a short
    record) or the list of surplus fields (under the [restkey] [None]). *)
Inductive cell :=
| CStr (s : pystr)
| CNone
| CList (l : list pystr).

Definition key := option pystr.

Definition key_eqb (a b : key) : bool :=
  match a, b with
  | None, None => true
  | Some x, Some y => PyStr.eqb x y
  | _, _ => false
  end.

(** A [dict], in insertion order. *)
Definition dict := list (key * cell).

Fixpoint dict_set (k : key) (v : cell) (d : dict) : dict :=
  match d with
  | [] => [(k, v)]
  | (k', v') :: d' =>
      if key_eqb k k' then (k', v) :: d' else (k', v') :: dict_set k v d'
  end.

Fixpoint dict_get (k : key) (d : dict) : option cell :=
  match d with
  | [] => None
  | (k', v') :: d' => if key_eqb k k' then Some v' else dict_get k d'
  end.

(** [k in d] *)
Definition dict_in (k : key) (d : dict) : bool :=
  match dict_get k d with Some _ => true | None => false end.

(** [DictReader.__next__] on a non-empty record: [dict(zip(fieldnames, row))],
    then the surplus fields under [restkey], or [restval] for the field
    names the record is too short for. *)
Definition DictReader_row (fieldnames row : list pystr) : dict :=
  let d :=
    fold_left (fun d kv => dict_set (Some (fst kv)) (CStr (snd kv)) d)
              (combine fieldnames row) [] in
  let lf := length fieldnames in
  let lr := length row in
  if Nat.ltb lf lr then dict_set None (CList (skipn lf row)) d
  else if Nat.ltb lr lf then
    fold_left (fun d k => dict_set (Some k) CNone d) (skipn lr fieldnames) d
  else d.

End Csv.

Import Csv.

(** ** The validator *)

(** The attributes of a [PhoneValidator]; [twilio_client] and
    [openai.api_key] live in the collaborators. *)
Record PhoneValidator := {
  twilio_account_sid : option pystr;
  twilio_auth_token : option pystr;
  twilio_phone_number : option pystr;
  openai_api_key : option pystr;
  invalid_phrases : list pystr;
  call_delay : nat;
  recording_duration : nat
}.

Definition default_invalid_phrases : list pystr :=
  map u [
    "недоступний"; "номер не обслуговується"; "невірно набраний";
    "поза зоною"; "абонент відсутній"; "номер відключений";
    "неправильний номер"; "не існує"; "тимчасово недоступний";
    "номер заблокований"; "послуга недоступна"
  ]%string.

Definition required_vars : list pystr :=
  map u [
    "TWILIO_ACCOUNT_SID"; "TWILIO_AUTH_TOKEN";
    "TWILIO_PHONE_NUMBER"; "OPENAI_API_KEY"
  ]%string.

(** [is_valid_number]: the classifier, a pure function of the text and of
    the denylist. *)
Definition is_valid_number (self : PhoneValidator) (text : pystr) : bool :=
  if negb (truthy text) then false
  else
    let text_lower := lower text in
    if existsb (fun phrase => contains phrase text_lower) (invalid_phrases self)
    then false
    else if Nat.ltb (length (strip text)) 3 then false
    else true.

(** The test and the append of the loop body of [read_phone_numbers]:
    the phone the row contributes, if any.  [.strip()] on a value that is
    not a [str] raises [AttributeError]. *)
Definition phone_of_row (row : dict) : outcome (option pystr) :=
  if dict_in (Some (u "phone")) row then
    match dict_get (Some (u "phone")) row with
    | Some (CStr s) =>
        if truthy (strip s) then Return (Some (strip s)) else Return None
    | Some CNone =>
        Raise (Exn AttributeError
                   (u "'NoneType' object has no attribute 'strip'"))
    | Some (CList _) =>
        Raise (Exn AttributeError
                   (u "'list' object has no attribute 'strip'"))
    | None => Return None
    end
  else Return None.

Section Validator.

Context {W : Type} `{Collaborators W}.

(** [_validate_credentials] *)
Definition missing_vars (w : W) : list pystr :=
  filter (fun var => negb (truthy_opt (os_getenv var w))) required_vars.

Definition _validate_credentials : M W unit :=
  missing <- ask missing_vars ;;
  match missing with
  | [] => ret tt
  | _ :: _ =>
      raise (Exn ValueError
                 (u "Відсутні змінні середовища: " ++ join (u ", ") missing))
  end.

(** [__init__] *)
Definition __init__ : M W PhoneValidator :=
  account_sid <- ask (os_getenv (u "TWILIO_ACCOUNT_SID")) ;;
  auth_token <- ask (os_getenv (u "TWILIO_AUTH_TOKEN")) ;;
  phone_number <- ask (os_getenv (u "TWILIO_PHONE_NUMBER")) ;;
  api_key <- ask (os_getenv (u "OPENAI_API_KEY")) ;;
  call (twilio_Client account_sid auth_token) ;;;
  let self := {|
    twilio_account_sid := account_sid;
    twilio_auth_token := auth_token;
    twilio_phone_number := phone_number;
    openai_api_key := api_key;
    invalid_phrases := default_invalid_phrases;
    call_delay := 2;
    recording_duration := 10
  |} in
  _validate_credentials ;;;
  ret self.

(** The [for row in reader] loop of [read_phone_numbers] over the records
    that follow the header; empty records are skipped by [DictReader]. *)
Fixpoint read_rows (fieldnames : list pystr) (records : list (list pystr))
    (failure : option exn) (phones : list pystr) : M W (list pystr) :=
  match records with
  | [] =>
      match failure with
      | Some e => raise e
      | None => ret phones
      end
  | [] :: records' => read_rows fieldnames records' failure phones
  | row :: records' =>
      p <- lift (phone_of_row (DictReader_row fieldnames row)) ;;
      match p with
      | Some s => read_rows fieldnames records' failure (phones ++ [s])
      | None => read_rows fieldnames records' failure phones
      end
  end.

(** The body of the [with open(...)] block: the first record is the
    header. *)
Definition read_source (src : csv_source) : M W (list pystr) :=
  match csv_records src with
  | [] =>
      match csv_failure src with
      | Some e => raise e
      | None => ret []
      end
  | fieldnames :: records => read_rows fieldnames records (csv_failure src) []
  end.

(** [read_phone_numbers] *)
Definition read_phone_numbers (self : PhoneValidator) (csv_file : pystr)
  : M W (list pystr) :=
  try_except
    (src <- call (open_csv csv_file) ;;
     phones <- read_source src ;;
     logger_info (u "Завантажено " ++ str_of_nat (length phones)
                  ++ u " номерів з " ++ csv_file) ;;;
     ret phones)
    (fun e =>
       match exn_cls e with
       | FileNotFoundError =>
           logger_error (u "Файл " ++ csv_file ++ u " не знайдено") ;;;
           ret []
       | _ =>
           logger_error (u "Помилка читання файлу: " ++ exn_str e) ;;;
           ret []
       end).

(** The arguments [make_call_with_recording] passes to [calls.create]. *)
Definition create_args (self : PhoneValidator) (phone_number : pystr)
  : call_request :=
  let twiml_url :=
    u "http://twimlets.com/holdmusic?Bucket=com.twilio.music.ambient" in
  {|
    to := phone_number;
    from_ := twilio_phone_number self;
    url := twiml_url;
    record := true;
    recording_channels := u "mono";
    recording_status_callback_event := [u "completed"];
    timeout := recording_duration self;
    method := u "GET"
  |}.

(** [make_call_with_recording] *)
Definition make_call_with_recording (self : PhoneValidator)
    (phone_number : pystr) : M W (option pystr * option pystr) :=
  try_except
    (sid <- call (calls_create (create_args self phone_number)) ;;
     logger_info (u "Дзвінок розпочато: " ++ phone_number
                  ++ u " (SID: " ++ sid ++ u ")") ;;;
     time_sleep (recording_duration self + 2) ;;;
     recordings <- call (recordings_list sid 1) ;;
     let recording_sid :=
       match recordings with
       | [] => None
       | r :: _ => Some r
       end in
     ret (Some sid, recording_sid))
    (fun e =>
       match exn_cls e with
       | TwilioRestException =>
           logger_error (u "Помилка Twilio для " ++ phone_number
                         ++ u ": " ++ exn_str e) ;;;
           ret (None, None)
       | _ =>
           logger_error (u "Загальна помилка для " ++ phone_number
                         ++ u ": " ++ exn_str e) ;;;
           ret (None, None)
       end).

(** [download_recording] *)
Definition download_recording (self : PhoneValidator)
    (recording_sid : option pystr) : M W (option pystr) :=
  match recording_sid with
  | None => ret None
  | Some [] => ret None
  | Some sid =>
      try_except
        (uri <- call (recordings_fetch sid) ;;
         let audio_url :=
           u "https://api.twilio.com" ++ replace (u ".json") (u ".mp3") uri in
         response <- call (requests_get audio_url
                             (twilio_account_sid self,
                              twilio_auth_token self)) ;;
         let (status_code, content) := response in
         if Nat.eqb status_code 200 then
           let filename := u "recording_" ++ sid ++ u ".mp3" in
           call (write_binary filename content) ;;;
           logger_info (u "Запис завантажено: " ++ filename) ;;;
           ret (Some filename)
         else
           logger_error (u "Не вдалося завантажити запис " ++ sid) ;;;
           ret None)
        (fun e =>
           logger_error (u "Помилка завантаження запису: " ++ exn_str e) ;;;
           ret None)
  end.

(** [transcript.get('text', '')] *)
Definition transcript_text (transcript : option pystr) : pystr :=
  match transcript with
  | Some t => t
  | None => []
  end.

(** [transcribe_audio] *)
Definition transcribe_audio (self : PhoneValidator)
    (audio_file : option pystr) : M W pystr :=
  match audio_file with
  | None => ret []
  | Some [] => ret []
  | Some path =>
      present <- ask (os_path_exists path) ;;
      if negb present then ret []
      else
        try_except
          (f <- call (open_binary path) ;;
           transcript <- call (audio_transcribe (u "whisper-1") f (u "uk")) ;;
           let text := lower (transcript_text transcript) in
           logger_info (u "Розпізнано текст: " ++ slice_to 100 text
                        ++ u "...") ;;;
           call (os_remove path) ;;;
           ret text)
          (fun e =>
             logger_error (u "Помилка розпізнавання: " ++ exn_str e) ;;;
             ret [])
  end.

(** [validate_phone_number] *)
Definition validate_phone_number (self : PhoneValidator)
    (phone_number : pystr) : M W ValidationResult :=
  logger_info (u "Перевірка номера: " ++ phone_number) ;;;
  sids <- make_call_with_recording self phone_number ;;
  let (call_sid, recording_sid) := sids in
  if negb (truthy_opt call_sid) then
    now <- call_total datetime_now_isoformat ;;
    ret {|
      phone := phone_number;
      status := ERROR;
      transcribed_text := u "Помилка дзвінка";
      call_sid := None;
      timestamp := now
    |}
  else
    audio_file <- download_recording self recording_sid ;;
    transcribed_text <-
      (if truthy_opt audio_file then transcribe_audio self audio_file
       else ret []) ;;
    let is_valid := is_valid_number self transcribed_text in
    let status := if is_valid then VALID else INVALID in
    now <- call_total datetime_now_isoformat ;;
    let result := {|
      phone := phone_number;
      status := status;
      transcribed_text := transcribed_text;
      call_sid := call_sid;
      timestamp := now
    |} in
    logger_info (u "Результат для " ++ phone_number ++ u ": "
                 ++ status_str status) ;;;
    ret result.

Definition fieldnames_out : list pystr :=
  map u ["phone"; "status"; "transcribed_text"; "call_sid"; "timestamp"]%string.

(** The [for i, phone in enumerate(phones, 1)] loop of
    [process_phone_list]; [total] is [len(phones)] and [results] the list
    appended to. *)
Fixpoint process_loop (self : PhoneValidator) (output_csv : pystr)
    (total i : nat) (phones : list pystr) (results : list ValidationResult)
  : M W (list ValidationResult) :=
  match phones with
  | [] => ret results
  | phone :: phones' =>
      logger_info (u "Обробка " ++ str_of_nat i ++ u "/" ++ str_of_nat total
                   ++ u ": " ++ phone) ;;;
      result <- validate_phone_number self phone ;;
      writerow output_csv result ;;;
      flush output_csv ;;;
      (if Nat.ltb i total then
         logger_info (u "Пауза " ++ str_of_nat (call_delay self)
                      ++ u " секунд...") ;;;
         time_sleep (call_delay self)
       else ret tt) ;;;
      process_loop self output_csv total (S i) phones' (results ++ [result])
  end.

Definition status_eqb (a b : Status) : bool :=
  match a, b with
  | VALID, VALID | INVALID, INVALID | ERROR, ERROR => true
  | _, _ => false
  end.

(** [sum(1 for r in results if r['status'] == s)] *)
Definition count_status (s : Status) (results : list ValidationResult) : nat :=
  length (filter (fun r => status_eqb (status r) s) results).

(** [process_phone_list] *)
Definition process_phone_list (self : PhoneValidator)
    (input_csv output_csv : pystr) : M W unit :=
  phones <- read_phone_numbers self input_csv ;;
  match phones with
  | [] => logger_error (u "Немає номерів для обробки")
  | _ :: _ =>
      open_for_writing output_csv ;;;
      writeheader output_csv fieldnames_out ;;;
      results <- process_loop self output_csv (length phones) 1 phones [] ;;
      logger_info (u "Обробка завершена:") ;;;
      logger_info (u "Валідні: " ++ str_of_nat (count_status VALID results)) ;;;
      logger_info (u "Невалідні: "
                   ++ str_of_nat (count_status INVALID results)) ;;;
      logger_info (u "Помилки: " ++ str_of_nat (count_status ERROR results)) ;;;
      logger_info (u "Результати збережено у " ++ output_csv)
  end.

End Validator.

Section Main.

Context {W : Type} `{Collaborators W}.

(** [datetime.now().strftime(format)] *)
Variable datetime_now_strftime : pystr -> W -> pystr * W.

(** [main] *)
Definition main : M W unit :=
  validator <- __init__ ;;
  let input_file := u "phone_numbers.csv" in
  stamp <- call_total (datetime_now_strftime (u "%Y%m%d_%H%M%S")) ;;
  let output_file := u "validation_results_" ++ stamp ++ u ".csv" in
  process_phone_list validator input_file output_file.

End Main.

(** ** A scripted set of collaborators

    A test double on which the methods evaluate: the environment and the
    input tables are given, the provider rejects the numbers of [rejected],
    leaves no recording for those of [unrecorded], and the speech service
    hears [speech] in the recording of a number. *)

Module Scenario.

Record world := {
  environ : list (pystr * pystr);
  tables : list (pystr * csv_source);
  rejected : list pystr;
  unrecorded : list pystr;
  speech : list (pystr * pystr);
  files : list (pystr * list N);
  clock : nat
}.

Fixpoint lookup {A} (k : pystr) (l : list (pystr * A)) : option A :=
  match l with
  | [] => None
  | (k', v) :: l' => if PyStr.eqb k k' then Some v else lookup k l'
  end.

Definition mem (k : pystr) (l : list pystr) : bool :=
  existsb (PyStr.eqb k) l.

Definition with_files (w : world) (fs : list (pystr * list N)) : world := {|
  environ := environ w;
  tables := tables w;
  rejected := rejected w;
  unrecorded := unrecorded w;
  speech := speech w;
  files := fs;
  clock := clock w
|}.

Definition tick (w : world) : world := {|
  environ := environ w;
  tables := tables w;
  rejected := rejected w;
  unrecorded := unrecorded w;
  speech := speech w;
  files := files w;
  clock := S (clock w)
|}.

(** The Twilio client is built from whatever credentials it is given. *)
Definition Client (username password : option pystr) (w : world)
  : outcome unit * world :=
  (Return tt, w).

Definition open_table (path : pystr) (w : world)
  : outcome csv_source * world :=
  match lookup path (tables w) with
  | Some src => (Return src, w)
  | None =>
      (Raise (Exn FileNotFoundError
                  (u "[Errno 2] No such file or directory: '" ++ path
                   ++ u "'")), w)
  end.

Definition create_call (req : call_request) (w : world)
  : outcome pystr * world :=
  if mem (to req) (rejected w) then
    (Raise (Exn TwilioRestException
                (u "HTTP 400 error: Unable to create record")), w)
  else (Return (u "CA" ++ to req), w).

Definition list_recordings (sid : pystr) (limit : nat) (w : world)
  : outcome (list pystr) * world :=
  let number := skipn 2 sid in
  if mem number (unrecorded w) then (Return [], w)
  else (Return (firstn limit [u "RE" ++ number]), w).

Definition fetch_recording (rsid : pystr) (w : world)
  : outcome pystr * world :=
  (Return (u "/2010-04-01/Recordings/" ++ rsid ++ u ".json"), w).

Definition http_get (url : pystr) (auth : option pystr * option pystr)
    (w : world) : outcome (nat * list N) * world :=
  (Return (200, url), w).

Definition write_artifact (name : pystr) (content : list N) (w : world)
  : outcome unit * world :=
  (Return tt, with_files w ((name, content) :: files w)).

Definition exists_artifact (name : pystr) (w : world) : bool :=
  match lookup name (files w) with Some _ => true | None => false end.

Definition open_artifact (name : pystr) (w : world)
  : outcome (list N) * world :=
  match lookup name (files w) with
  | Some content => (Return content, w)
  | None =>
      (Raise (Exn FileNotFoundError
                  (u "[Errno 2] No such file or directory: '" ++ name
                   ++ u "'")), w)
  end.

Fixpoint heard (content : list N) (l : list (pystr * pystr)) : pystr :=
  match l with
  | [] => []
  | (number, text) :: l' =>
      if contains number content then text else heard content l'
  end.

Definition transcribe (model : pystr) (content : list N) (language : pystr)
    (w : world) : outcome (option pystr) * world :=
  (Return (Some (heard content (speech w))), w).

Definition remove_artifact (name : pystr) (w : world)
  : outcome unit * world :=
  (Return tt,
   with_files w (filter (fun f => negb (PyStr.eqb name (fst f))) (files w))).

Definition now (w : world) : pystr * world :=
  (u "2024-01-01T00:00:0" ++ str_of_nat (clock w), tick w).

(** The file system has no directory [nodir], and no file has the empty
    name: such an output file cannot be opened.  Any other is opened and
    written without failure. *)
Definition open_result (path : pystr) (w : world) : outcome unit * world :=
  if negb (truthy path) || starts_with (u "nodir/") path then
    (Raise (Exn FileNotFoundError
                (u "[Errno 2] No such file or directory: '" ++ path
                 ++ u "'")), w)
  else (Return tt, w).

Definition write_fieldnames (path : pystr) (fieldnames : list pystr)
    (w : world) : outcome unit * world :=
  (Return tt, w).

Definition write_result (path : pystr) (row : ValidationResult) (w : world)
  : outcome unit * world :=
  (Return tt, w).

Definition flush_result (path : pystr) (w : world) : outcome unit * world :=
  (Return tt, w).

#[global] Instance collaborators : Collaborators world := {|
  os_getenv := fun var w => lookup var (environ w);
  twilio_Client := Client;
  open_csv := open_table;
  calls_create := create_call;
  recordings_list := list_recordings;
  recordings_fetch := fetch_recording;
  requests_get := http_get;
  write_binary := write_artifact;
  os_path_exists := exists_artifact;
  open_binary := open_artifact;
  audio_transcribe := transcribe;
  os_remove := remove_artifact;
  datetime_now_isoformat := now;
  open_output := open_result;
  writer_writeheader := write_fieldnames;
  writer_writerow := write_result;
  file_flush := flush_result
|}.

Definition full_environ : list (pystr * pystr) := [
  (u "TWILIO_ACCOUNT_SID", u "AC0123");
  (u "TWILIO_AUTH_TOKEN", u "secret");
  (u "TWILIO_PHONE_NUMBER", u "+10000000000");
  (u "OPENAI_API_KEY", u "sk-0123")
].

(** The end-to-end scenario: two numbers; the first call is answered by
    a voice mail, the provider rejects the second. *)
Definition two_numbers : world := {|
  environ := full_environ;
  tables := [(u "phone_numbers.csv",
              {| csv_records := [[u "phone"];
                                 [u "+10000000001"];
                                 [u "+10000000002"]];
                 csv_failure := None |})];
  rejected := [u "+10000000002"];
  unrecorded := [];
  speech := [(u "+10000000001", u "please leave your message")];
  files := [];
  clock := 0
|}.

(** A table whose second data row stops before the [phone] column. *)
Definition short_row : world := {|
  environ := full_environ;
  tables := [(u "phone_numbers.csv",
              {| csv_records := [[u "name"; u "phone"];
                                 [u "alice"; u "+10000000001"];
                                 [u "bob"]];
                 csv_failure := None |})];
  rejected := [];
  unrecorded := [];
  speech := [];
  files := [];
  clock := 0
|}.

(** One number, whose call is placed but leaves no recording. *)
Definition no_recording : world := {|
  environ := full_environ;
  tables := [(u "phone_numbers.csv",
              {| csv_records := [[u "phone"]; [u "+10000000003"]];
                 csv_failure := None |})];
  rejected := [];
  unrecorded := [u "+10000000003"];
  speech := [];
  files := [];
  clock := 0
|}.

(** A table without a [phone] column. *)
Definition no_phone_column : world := {|
  environ := full_environ;
  tables := [(u "phone_numbers.csv",
              {| csv_records := [[u "name"; u "number"];
                                 [u "alice"; u "+10000000001"]];
                 csv_failure := None |})];
  rejected := [];
  unrecorded := [];
  speech := [];
  files := [];
  clock := 0
|}.

(** No input table at all. *)
Definition no_table : world := {|
  environ := full_environ;
  tables := [];
  rejected := [];
  unrecorded := [];
  speech := [];
  files := [];
  clock := 0
|}.

(** The account identifier is not set. *)
Definition no_account_sid : world := {|
  environ := tl full_environ;
  tables := [];
  rejected := [];
  unrecorded := [];
  speech := [];
  files := [];
  clock := 0
|}.

(** Neither the sender number nor the speech-service key is set. *)
Definition no_number_no_key : world := {|
  environ := firstn 2 full_environ;
  tables := [];
  rejected := [];
  unrecorded := [];
  speech := [];
  files := [];
  clock := 0
|}.

(** The clock formatted by [strftime]. *)
Definition strftime (format : pystr) (w : world) : pystr * world :=
  (u "20240101_00000" ++ str_of_nat (clock w), w).

(** One number whose recording is already on disk. *)
Definition downloaded : world := {|
  environ := full_environ;
  tables := [];
  rejected := [];
  unrecorded := [];
  speech := [(u "+10000000001", u "Please Leave Your Message")];
  files := [(u "recording_RE+10000000001.mp3", u "+10000000001")];
  clock := 0
|}.

(** The scripted collaborators with faults injected: the listing of
    recordings or the removal of a file may fail, and the download answers
    with [http_status]. *)
Record faulty := {
  underlying : world;
  listing_fails : bool;
  removal_fails : bool;
  http_status : nat
}.

Definition on_underlying {A} (op : world -> outcome A * world) (f : faulty)
  : outcome A * faulty :=
  match op (underlying f) with
  | (r, w) =>
      (r, {| underlying := w;
             listing_fails := listing_fails f;
             removal_fails := removal_fails f;
             http_status := http_status f |})
  end.

Definition faulty_list (sid : pystr) (limit : nat) (f : faulty)
  : outcome (list pystr) * faulty :=
  if listing_fails f then
    (Raise (Exn TwilioRestException
                (u "HTTP 500 error: Unable to fetch page")), f)
  else on_underlying (list_recordings sid limit) f.

Definition faulty_remove (name : pystr) (f : faulty)
  : outcome unit * faulty :=
  if removal_fails f then
    (Raise (Exn OtherException
                (u "[Errno 13] Permission denied: '" ++ name ++ u "'")), f)
  else on_underlying (remove_artifact name) f.

Definition faulty_get (url : pystr) (auth : option pystr * option pystr)
    (f : faulty) : outcome (nat * list N) * faulty :=
  (Return (http_status f, url), f).

Definition faulty_now (f : faulty) : pystr * faulty :=
  match now (underlying f) with
  | (s, w) =>
      (s, {| underlying := w;
             listing_fails := listing_fails f;
             removal_fails := removal_fails f;
             http_status := http_status f |})
  end.

#[global] Instance faulty_collaborators : Collaborators faulty := {|
  os_getenv := fun var f => lookup var (environ (underlying f));
  twilio_Client :=
    fun username password => on_underlying (Client username password);
  open_csv := fun path => on_underlying (open_table path);
  calls_create := fun req => on_underlying (create_call req);
  recordings_list := faulty_list;
  recordings_fetch := fun rsid => on_underlying (fetch_recording rsid);
  requests_get := faulty_get;
  write_binary :=
    fun name content => on_underlying (write_artifact name content);
  os_path_exists := fun name f => exists_artifact name (underlying f);
  open_binary := fun name => on_underlying (open_artifact name);
  audio_transcribe :=
    fun model content language =>
      on_underlying (transcribe model content language);
  os_remove := faulty_remove;
  datetime_now_isoformat := faulty_now;
  open_output := fun path => on_underlying (open_result path);
  writer_writeheader :=
    fun path fieldnames => on_underlying (write_fieldnames path fieldnames);
  writer_writerow := fun path row => on_underlying (write_result path row);
  file_flush := fun path => on_underlying (flush_result path)
|}.

(** The listing of recordings fails. *)
Definition listing_down : faulty := {|
  underlying := two_numbers;
  listing_fails := true;
  removal_fails := false;
  http_status := 200
|}.

(** The recording cannot be downloaded. *)
Definition forbidden_download : faulty := {|
  underlying := two_numbers;
  listing_fails := false;
  removal_fails := false;
  http_status := 403
|}.

(** The downloaded recording cannot be removed. *)
Definition removal_denied : faulty := {|
  underlying := downloaded;
  listing_fails := false;
  removal_fails := true;
  http_status := 200
|}.

(** The validator [__init__] builds in [full_environ]. *)
Definition validator : PhoneValidator := {|
  twilio_account_sid := Some (u "AC0123");
  twilio_auth_token := Some (u "secret");
  twilio_phone_number := Some (u "+10000000000");
  openai_api_key := Some (u "sk-0123");
  invalid_phrases := default_invalid_phrases;
  call_delay := 2;
  recording_duration := 10
|}.

End Scenario.

(** ** Properties *)

(** The rows written to the output table, in the order of the writes. *)
Definition rows_written (t : list event) : list ValidationResult :=
  flat_map (fun e => match e with WriteRow _ r => [r] | _ => [] end) t.

(** Events that create the output file or write to it. *)
Definition touches_output (e : event) : bool :=
  match e with
  | OpenOutput _ | WriteHeader _ _ | WriteRow _ _ | Flush _ => true
  | Log _ _ | Sleep _ => false
  end.

(** The error records of a trace. *)
Definition errors_logged (t : list event) : list pystr :=
  flat_map (fun e => match e with Log LError msg => [msg] | _ => [] end) t.

(** The value a record has in the [phone] column, when it has one. *)
Definition phone_value (fieldnames row : list pystr) : option pystr :=
  match dict_get (Some (u "phone")) (DictReader_row fieldnames row) with
  | Some (CStr s) => Some s
  | _ => None
  end.

(** The reader's output as the specification words it: the trimmed,
    non-empty phone values in file order, rows with a blank or missing
    phone value skipped. *)
Definition spec_phones (fieldnames : list pystr) (records : list (list pystr))
  : list pystr :=
  flat_map (fun row =>
              match phone_value fieldnames row with
              | Some s => if truthy (strip s) then [strip s] else []
              | None => []
              end) records.

(** A record is short of the [phone] column when [DictReader] fills the
    column with [None]. *)
Definition short_of_phone (fieldnames row : list pystr) : bool :=
  match row with
  | [] => false
  | _ :: _ =>
      match dict_get (Some (u "phone")) (DictReader_row fieldnames row) with
      | Some CNone => true
      | _ => false
      end
  end.

(** No field name of a row dictionary holds a list: the surplus fields
    go under the key [None]. *)
Definition no_list (d : dict) : Prop :=
  forall k l, dict_get (Some k) d <> Some (CList l).

(** [make_call_with_recording] gave no call identifier: [None], or the
    empty string, which [not call_sid] does not tell from [None]. *)
Definition no_call_identifier (sids : option pystr * option pystr) : Prop :=
  fst sids = None \/ fst sids = Some [].

(** The durations slept, in order. *)
Definition sleeps (t : list event) : list nat :=
  flat_map (fun e => match e with Sleep n => [n] | _ => [] end) t.

(** The events on the output file, in order. *)
Definition output_events (t : list event) : list event :=
  filter touches_output t.

(** What a batch writes for its rows: each row, flushed at once. *)
Definition row_writes (output_csv : pystr) (rows : list ValidationResult)
  : list event :=
  flat_map (fun r => [WriteRow output_csv r; Flush output_csv]) rows.

(** The summary [process_phone_list] logs after the loop. *)
Definition summary_logs (output_csv : pystr) (rows : list ValidationResult)
  : list event :=
  [Log LInfo (u "Обробка завершена:");
   Log LInfo (u "Валідні: " ++ str_of_nat (count_status VALID rows));
   Log LInfo (u "Невалідні: " ++ str_of_nat (count_status INVALID rows));
   Log LInfo (u "Помилки: " ++ str_of_nat (count_status ERROR rows));
   Log LInfo (u "Результати збережено у " ++ output_csv)].

(** The rows of a batch and its pauses of [delay] seconds, as they
    alternate: a pause between two consecutive rows, none after the
    last. *)
Fixpoint rows_and_pauses (output_csv : pystr) (delay : nat)
    (rows : list ValidationResult) : list event :=
  match rows with
  | [] => []
  | [r] => [WriteRow output_csv r]
  | r :: rest =>
      WriteRow output_csv r :: Sleep delay
      :: rows_and_pauses output_csv delay rest
  end.

(** A row written, or a sleep of [delay] seconds. *)
Definition row_or_pause (delay : nat) (e : event) : bool :=
  match e with
  | WriteRow _ _ => true
  | Sleep n => Nat.eqb n delay
  | _ => false
  end.

(** A [str] without leading or trailing whitespace. *)
Definition trimmed (s : pystr) : Prop := strip s = s.

Section Oracles.

Context {W : Type} `{Collaborators W}.

(** The first exception the provider raises to [make_call_with_recording],
    if any: at the creation of the call, or at the listing of its
    recordings. *)
Definition provider_failure (self : PhoneValidator) (phone_number : pystr)
    (w : W) : option exn :=
  match calls_create (create_args self phone_number) w with
  | (Raise e, _) => Some e
  | (Return sid, w1) =>
      match recordings_list sid 1 w1 with
      | (Raise e, _) => Some e
      | (Return _, _) => None
      end
  end.

(** The exception the file system raises to [read_phone_numbers], if any:
    at the opening of the file, or while its records are read. *)
Definition read_failure (csv_file : pystr) (w : W) : option exn :=
  match open_csv csv_file w with
  | (Raise e, _) => Some e
  | (Return src, _) => csv_failure src
  end.

(** [audio_file and os.path.exists(audio_file)]: there is a recording
    file to transcribe. *)
Definition audio_present (audio_file : option pystr) (w : W) : bool :=
  match audio_file with
  | Some (c :: path) => os_path_exists (c :: path) w
  | _ => false
  end.

(** The output file accepts every operation of a batch: it can be
    opened for writing, and the header, every row and every flush are
    written without an exception. *)
Definition writable (output_csv : pystr) : Prop :=
  (forall w, exists w', open_output output_csv w = (Return tt, w')) /\
  (forall fieldnames w,
      exists w', writer_writeheader output_csv fieldnames w = (Return tt, w')) /\
  (forall row w,
      exists w', writer_writerow output_csv row w = (Return tt, w')) /\
  (forall w, exists w', file_flush output_csv w = (Return tt, w')).

(** [row] is a result [validate_phone_number] returns for [number]. *)
Definition validated (self : PhoneValidator) (number : pystr)
    (row : ValidationResult) : Prop :=
  exists w w' t, validate_phone_number self number w = (Return row, w', t).

(** The download of the recording [sid] fails: the provider raises when
    the recording is fetched, the request raises or is answered with a
    status other than 200, or the file cannot be written. *)
Definition download_failure (self : PhoneValidator) (sid : pystr) (w : W)
  : Prop :=
  match recordings_fetch sid w with
  | (Raise _, _) => True
  | (Return uri, w1) =>
      match requests_get
              (u "https://api.twilio.com"
               ++ replace (u ".json") (u ".mp3") uri)
              (twilio_account_sid self, twilio_auth_token self) w1 with
      | (Raise _, _) => True
      | (Return (status_code, content), w2) =>
          if Nat.eqb status_code 200 then
            match write_binary (u "recording_" ++ sid ++ u ".mp3")
                               content w2 with
            | (Raise _, _) => True
            | (Return _, _) => False
            end
          else True
      end
  end.

(** The transcription of the file [path] fails: the file cannot be
    opened, the speech service raises, or the file cannot be removed. *)
Definition transcription_failure (path : pystr) (w : W) : Prop :=
  match open_binary path w with
  | (Raise _, _) => True
  | (Return f, w1) =>
      match audio_transcribe (u "whisper-1") f (u "uk") w1 with
      | (Raise _, _) => True
      | (Return _, w2) =>
          match os_remove path w2 with
          | (Raise _, _) => True
          | (Return _, _) => False
          end
      end
  end.

(** After a call that was placed, from the state [w1] it left, no
    transcript is obtained for the recording [recording_sid]: no
    recording was found, the download failed, the transcription failed,
    or the speech service heard nothing. *)
Inductive no_transcript (self : PhoneValidator)
    (recording_sid : option pystr) (w1 : W) : Prop :=
| no_recording_found :
    truthy_opt recording_sid = false ->
    no_transcript self recording_sid w1
| download_raised (sid : pystr) :
    recording_sid = Some sid ->
    download_failure self sid w1 ->
    no_transcript self recording_sid w1
| download_failed (w2 : W) (t2 : list event) :
    download_recording self recording_sid w1 = (Return None, w2, t2) ->
    no_transcript self recording_sid w1
| transcription_raised (path : pystr) (w2 : W) (t2 : list event) :
    download_recording self recording_sid w1 = (Return (Some path), w2, t2) ->
    transcription_failure path w2 ->
    no_transcript self recording_sid w1
| transcription_failed (file : option pystr) (w2 w3 : W)
    (t2 t3 : list event) (text : pystr) :
    download_recording self recording_sid w1 = (Return file, w2, t2) ->
    transcribe_audio self file w2 = (Return text, w3, t3) ->
    errors_logged t3 <> [] ->
    no_transcript self recording_sid w1
| nothing_heard (file : option pystr) (w2 w3 : W) (t2 t3 : list event) :
    download_recording self recording_sid w1 = (Return file, w2, t2) ->
    transcribe_audio self file w2 = (Return [], w3, t3) ->
    no_transcript self recording_sid w1.

End Oracles.

Ltac unfold_eff :=
  unfold logger_info, logger_error, time_sleep in *;
  unfold open_for_writing, writeheader, writerow, flush in *;
  unfold bind, try_except, ret, raise, emit, call, call_total, ask, lift
    in *.

Ltac quiet :=
  cbn [existsb touches_output app];
  repeat rewrite existsb_app;
  cbn [existsb touches_output];
  repeat match goal with
         | H : existsb touches_output _ = false |- _ => rewrite H
         end;
  reflexivity.

Lemma quiet_app (t1 t2 : list event) :
  existsb touches_output t1 = false ->
  existsb touches_output t2 = false ->
  existsb touches_output (t1 ++ t2) = false.
Proof.
  intros H1 H2. rewrite existsb_app, H1, H2. reflexivity.
Qed.

Lemma quiet_no_rows (t : list event) :
  existsb touches_output t = false -> rows_written t = [].
Proof.
  induction t as [| e t IH]; cbn; [reflexivity |].
  destruct e; cbn; try discriminate; exact IH.
Qed.

Lemma rows_written_app (t1 t2 : list event) :
  rows_written (t1 ++ t2) = rows_written t1 ++ rows_written t2.
Proof.
  unfold rows_written. apply flat_map_app.
Qed.

Lemma no_call_identifier_iff (sids : option pystr * option pystr) :
  no_call_identifier sids <-> truthy_opt (fst sids) = false.
Proof.
  unfold no_call_identifier. destruct sids as [[[| c s] |] rs]; cbn;
    split; intros Hx;
    try reflexivity; try discriminate; try (destruct Hx; discriminate);
    auto.
Qed.

Lemma is_valid_number_empty (self : PhoneValidator) :
  is_valid_number self [] = false.
Proof.
  reflexivity.
Qed.

(** A text in which a phrase of the denylist occurs, in any case, is
    classified invalid. *)
Lemma is_valid_number_denylist (self : PhoneValidator) (text phrase : pystr) :
  In phrase (invalid_phrases self) ->
  contains phrase (lower text) = true ->
  is_valid_number self text = false.
Proof.
  intros Hin Hc. unfold is_valid_number.
  destruct (truthy text); cbn; [| reflexivity].
  replace (existsb _ (invalid_phrases self)) with true; [reflexivity |].
  symmetry. apply existsb_exists. exists phrase. split; assumption.
Qed.

Lemma eqb_eq (a b : pystr) : PyStr.eqb a b = true <-> a = b.
Proof.
  revert b. induction a as [| x a IH]; intros [| y b]; cbn;
    try (split; [discriminate | discriminate]); [tauto |].
  unfold cp_eqb. rewrite andb_true_iff, N.eqb_eq, IH.
  split; [intros [-> ->]; reflexivity | intros E; inversion E; auto].
Qed.

Lemma key_eqb_eq (a b : key) : key_eqb a b = true <-> a = b.
Proof.
  destruct a as [x |], b as [y |]; cbn;
    try (split; [discriminate | discriminate]); [| tauto].
  rewrite eqb_eq. split; [intros -> | intros E; inversion E]; reflexivity.
Qed.

Lemma key_eqb_refl (a : key) : key_eqb a a = true.
Proof.
  apply key_eqb_eq. reflexivity.
Qed.

Lemma dict_get_set (k k' : key) (v : cell) (d : dict) :
  dict_get k (dict_set k' v d) =
    if key_eqb k k' then Some v else dict_get k d.
Proof.
  induction d as [| [k0 v0] d IH]; cbn.
  - reflexivity.
  - destruct (key_eqb k' k0) eqn:E; cbn.
    + apply key_eqb_eq in E. subst k0.
      destruct (key_eqb k k'); reflexivity.
    + destruct (key_eqb k k0) eqn:E0.
      * apply key_eqb_eq in E0. subst k0.
        destruct (key_eqb k k') eqn:E1; [| reflexivity].
        apply key_eqb_eq in E1. subst k'.
        rewrite key_eqb_refl in E. discriminate.
      * exact IH.
Qed.

Lemma no_list_set (k : pystr) (v : cell) (d : dict) :
  (forall l, v <> CList l) -> no_list d -> no_list (dict_set (Some k) v d).
Proof.
  intros Hv Hd k0 l. rewrite dict_get_set.
  destruct (key_eqb (Some k0) (Some k)); [| apply Hd].
  intros E. inversion E. eapply Hv; eassumption.
Qed.

Lemma no_list_fields (kvs : list (pystr * pystr)) (d : dict) :
  no_list d ->
  no_list (fold_left (fun d kv => dict_set (Some (fst kv)) (CStr (snd kv)) d)
                     kvs d).
Proof.
  revert d. induction kvs as [| kv kvs IH]; intros d Hd; cbn; [exact Hd |].
  apply IH. apply no_list_set; [discriminate | exact Hd].
Qed.

Lemma no_list_restval (ks : list pystr) (d : dict) :
  no_list d ->
  no_list (fold_left (fun d k => dict_set (Some k) CNone d) ks d).
Proof.
  revert d. induction ks as [| k ks IH]; intros d Hd; cbn; [exact Hd |].
  apply IH. apply no_list_set; [discriminate | exact Hd].
Qed.

Lemma no_list_DictReader_row (fieldnames row : list pystr) :
  no_list (DictReader_row fieldnames row).
Proof.
  unfold DictReader_row.
  assert (H0 : no_list
            (fold_left
               (fun d kv => dict_set (Some (fst kv)) (CStr (snd kv)) d)
               (combine fieldnames row) [])).
  { apply no_list_fields. intros k l. cbn. discriminate. }
  destruct (Nat.ltb (length fieldnames) (length row)).
  - intros k l. rewrite dict_get_set. cbn. apply H0.
  - destruct (Nat.ltb (length row) (length fieldnames)); [| exact H0].
    apply no_list_restval. exact H0.
Qed.

(** After [DictReader] has filled the missing columns of an empty record,
    no column holds a text. *)
Lemma no_text_restval (ks : list pystr) (d : dict) (k : key) :
  (forall s, dict_get k d <> Some (CStr s)) ->
  forall s,
    dict_get k (fold_left (fun d k => dict_set (Some k) CNone d) ks d)
    <> Some (CStr s).
Proof.
  revert d. induction ks as [| k0 ks IH]; intros d Hd; cbn; [exact Hd |].
  apply IH. intros s. rewrite dict_get_set.
  destruct (key_eqb k (Some k0)); [discriminate | apply Hd].
Qed.

Lemma phone_value_empty_record (fieldnames : list pystr) :
  phone_value fieldnames [] = None.
Proof.
  unfold phone_value, DictReader_row.
  replace (combine fieldnames []) with (@nil (pystr * pystr))
    by (destruct fieldnames; reflexivity).
  cbn [fold_left length].
  destruct (Nat.ltb (length fieldnames) 0) eqn:E;
    [destruct fieldnames; discriminate |].
  destruct (Nat.ltb 0 (length fieldnames)); [| reflexivity].
  cbn [skipn].
  assert (Hn : forall s,
             dict_get (Some (u "phone"))
               (fold_left (fun d k => dict_set (Some k) CNone d) fieldnames [])
             <> Some (CStr s))
    by (apply no_text_restval; intros s; cbn; discriminate).
  destruct (dict_get _ _) as [[s | | l] |]; try reflexivity.
  exfalso. eapply Hn. reflexivity.
Qed.

Section Properties.

Context {W : Type} `{Collaborators W}.

Lemma make_call_with_recording_run (self : PhoneValidator)
    (phone_number : pystr) (w : W) :
  exists sids w' t,
    make_call_with_recording self phone_number w = (Return sids, w', t) /\
    existsb touches_output t = false /\
    match provider_failure self phone_number w with
    | Some e => sids = (None, None) /\ errors_logged t <> []
    | None => (exists sid, fst sids = Some sid) /\ errors_logged t = []
    end.
Proof.
  unfold make_call_with_recording, provider_failure. unfold_eff.
  destruct (calls_create _ w) as [[sid | e] w1]; cbn.
  - destruct (recordings_list sid 1 w1) as [[recs | e] w2]; cbn.
    + do 3 eexists. split; [reflexivity | split; [reflexivity |]].
      split; [exists sid |]; reflexivity.
    + destruct (exn_cls e); cbn; do 3 eexists;
        (split; [reflexivity | split; [reflexivity |]]);
        (split; [reflexivity | discriminate]).
  - destruct (exn_cls e); cbn; do 3 eexists;
      (split; [reflexivity | split; [reflexivity |]]);
      (split; [reflexivity | discriminate]).
Qed.

Lemma download_recording_run (self : PhoneValidator)
    (recording_sid : option pystr) (w : W) :
  exists file w' t,
    download_recording self recording_sid w = (Return file, w', t) /\
    existsb touches_output t = false /\
    (truthy_opt recording_sid = false -> file = None).
Proof.
  unfold download_recording.
  destruct recording_sid as [[| c sid] |]; unfold_eff; cbn.
  - do 3 eexists. repeat split; reflexivity.
  - destruct (recordings_fetch _ w) as [[uri | e] w1]; cbn.
    + destruct (requests_get _ _ w1) as [[[code content] | e] w2]; cbn.
      * destruct (Nat.eqb code 200); cbn.
        -- destruct (write_binary _ _ w2) as [[[] | e] w3]; cbn;
             do 3 eexists;
             (split; [reflexivity | split; [reflexivity | discriminate]]).
        -- do 3 eexists.
           split; [reflexivity | split; [reflexivity | discriminate]].
      * do 3 eexists.
        split; [reflexivity | split; [reflexivity | discriminate]].
    + do 3 eexists.
      split; [reflexivity | split; [reflexivity | discriminate]].
  - do 3 eexists. repeat split; reflexivity.
Qed.

Lemma transcribe_audio_run (self : PhoneValidator)
    (audio_file : option pystr) (w : W) :
  exists text w' t,
    transcribe_audio self audio_file w = (Return text, w', t) /\
    existsb touches_output t = false.
Proof.
  unfold transcribe_audio.
  destruct audio_file as [[| c path] |]; unfold_eff; cbn.
  - do 3 eexists. split; reflexivity.
  - destruct (os_path_exists _ w); cbn.
    + destruct (open_binary _ w) as [[f | e] w1]; cbn.
      * destruct (audio_transcribe _ f _ w1) as [[tr | e] w2]; cbn.
        -- destruct (os_remove _ w2) as [[[] | e] w3]; cbn;
             do 3 eexists; (split; reflexivity).
        -- do 3 eexists. split; reflexivity.
      * do 3 eexists. split; reflexivity.
    + do 3 eexists. split; reflexivity.
  - do 3 eexists. split; reflexivity.
Qed.

(** The shape of every run of [validate_phone_number]: it returns a
    result for the number, writes nothing, and fills the result from the
    call identifier [make_call_with_recording] gave. *)
Lemma validate_phone_number_run (self : PhoneValidator)
    (phone_number : pystr) (w : W) :
  exists sids w1 t1 res w' t,
    make_call_with_recording self phone_number w = (Return sids, w1, t1) /\
    validate_phone_number self phone_number w = (Return res, w', t) /\
    existsb touches_output t = false /\
    phone res = phone_number /\
    if truthy_opt (fst sids) then
      status res =
        (if is_valid_number self (transcribed_text res) then VALID
         else INVALID) /\
      call_sid res = fst sids
    else
      status res = ERROR /\
      transcribed_text res = u "Помилка дзвінка" /\
      call_sid res = None.
Proof.
  destruct (make_call_with_recording_run self phone_number w)
    as (sids & w1 & t1 & Hm & Ht1 & _).
  exists sids, w1, t1.
  unfold validate_phone_number. unfold_eff. cbn. rewrite Hm.
  destruct sids as [cs rs]. cbn.
  destruct (truthy_opt cs) eqn:Hcs; cbn.
  - destruct (download_recording_run self rs w1)
      as (file & w2 & t2 & Hd & Ht2 & _).
    rewrite Hd.
    destruct (truthy_opt file).
    + destruct (transcribe_audio_run self file w2)
        as (text & w3 & t3 & Htr & Ht3).
      rewrite Htr.
      destruct (datetime_now_isoformat w3) as [now w4]. cbn.
      do 3 eexists. split; [reflexivity |].
      split; [reflexivity |]. split; [| repeat split; reflexivity].
      quiet.
    + destruct (datetime_now_isoformat w2) as [now w3]. cbn.
      do 3 eexists. split; [reflexivity |].
      split; [reflexivity |]. split; [| repeat split; reflexivity].
      quiet.
  - destruct (datetime_now_isoformat w1) as [now w2]. cbn.
    do 3 eexists. split; [reflexivity |].
    split; [reflexivity |]. split; [| repeat split; reflexivity].
    quiet.
Qed.

Lemma read_rows_run (fieldnames : list pystr) (records : list (list pystr))
    (failure : option exn) (phones : list pystr) (w : W) :
  exists r, read_rows fieldnames records failure phones w = (r, w, []).
Proof.
  revert phones.
  induction records as [| row records IH]; intros phones; cbn.
  - destruct failure; eexists; reflexivity.
  - destruct row as [| c row]; [apply IH |].
    unfold_eff.
    destruct (phone_of_row _) as [[s |] | e]; cbn.
    + destruct (IH (phones ++ [s])) as [r Hr]. rewrite Hr.
      eexists; reflexivity.
    + destruct (IH phones) as [r Hr]. rewrite Hr. eexists; reflexivity.
    + eexists; reflexivity.
Qed.

(** On a table none of whose records is short of the [phone] column, and
    which is read to its end, the loop collects the phones the
    specification describes. *)
Lemma read_rows_complete (fieldnames : list pystr)
    (records : list (list pystr)) (phones : list pystr) (w : W) :
  existsb (short_of_phone fieldnames) records = false ->
  read_rows fieldnames records None phones w =
    (Return (phones ++ spec_phones fieldnames records), w, []).
Proof.
  revert phones.
  induction records as [| row records IH]; intros phones Hs.
  - cbn. rewrite app_nil_r. reflexivity.
  - cbn [existsb] in Hs. apply orb_false_iff in Hs. destruct Hs as [Hrow Hs].
    unfold spec_phones. cbn [flat_map]. fold (spec_phones fieldnames records).
    destruct row as [| c row].
    + rewrite phone_value_empty_record. cbn [read_rows app].
      apply IH, Hs.
    + cbn [read_rows]. unfold phone_value, phone_of_row, dict_in.
      cbn [short_of_phone] in Hrow.
      pose proof (no_list_DictReader_row fieldnames (c :: row) (u "phone"))
        as Hl.
      destruct (dict_get _ _) as [[s | | l] |].
      * unfold_eff.
        destruct (truthy (strip s)); rewrite IH by exact Hs; cbn.
        -- rewrite <- app_assoc. reflexivity.
        -- reflexivity.
      * discriminate.
      * exfalso. eapply Hl. reflexivity.
      * unfold_eff. rewrite IH by exact Hs. reflexivity.
Qed.

Lemma read_rows_failure (fieldnames : list pystr)
    (records : list (list pystr)) (e : exn) (phones : list pystr) (w : W) :
  exists e', read_rows fieldnames records (Some e) phones w = (Raise e', w, []).
Proof.
  revert phones.
  induction records as [| row records IH]; intros phones; cbn.
  - eexists; reflexivity.
  - destruct row as [| c row]; [apply IH |].
    unfold_eff.
    destruct (phone_of_row _) as [[s |] | e0]; cbn.
    + destruct (IH (phones ++ [s])) as [e' Hr]. rewrite Hr.
      eexists; reflexivity.
    + destruct (IH phones) as [e' Hr]. rewrite Hr. eexists; reflexivity.
    + eexists; reflexivity.
Qed.

(** Every run of [read_phone_numbers] returns a list and writes nothing;
    when it has logged an error the list is empty. *)
Lemma read_phone_numbers_run (self : PhoneValidator) (csv_file : pystr)
    (w : W) :
  exists phones w' t,
    read_phone_numbers self csv_file w = (Return phones, w', t) /\
    existsb touches_output t = false /\
    match read_failure csv_file w with
    | Some e => phones = [] /\ errors_logged t <> []
    | None => errors_logged t = [] \/ phones = []
    end.
Proof.
  unfold read_phone_numbers, read_failure. unfold_eff.
  destruct (open_csv csv_file w) as [[src | e] w1]; cbn.
  - unfold read_source. destruct src as [records failure]. cbn.
    destruct records as [| fieldnames records].
    + destruct failure as [e |]; cbn.
      * destruct (exn_cls e); cbn; do 3 eexists;
          (split; [reflexivity | split; [reflexivity |]]);
          (split; [reflexivity | discriminate]).
      * do 3 eexists. split; [reflexivity | split; [reflexivity |]].
        left; reflexivity.
    + destruct failure as [e |].
      * destruct (read_rows_failure fieldnames records e [] w1) as [e' Hr].
        rewrite Hr.
        destruct (exn_cls e'); cbn; do 3 eexists;
          (split; [reflexivity | split; [reflexivity |]]);
          (split; [reflexivity | discriminate]).
      * destruct (read_rows_run fieldnames records None [] w1) as [r Hr].
        rewrite Hr. destruct r as [phones | e]; cbn.
        -- do 3 eexists. split; [reflexivity | split; [reflexivity |]].
           left; reflexivity.
        -- destruct (exn_cls e); cbn; do 3 eexists;
             (split; [reflexivity | split; [reflexivity |]]);
             right; reflexivity.
  - destruct (exn_cls e); cbn; do 3 eexists;
      (split; [reflexivity | split; [reflexivity |]]);
      (split; [reflexivity | discriminate]).
Qed.

(** On a table that opens, is read to its end and has no record short of
    the [phone] column, [read_phone_numbers] returns the phones the
    specification describes. *)
Lemma read_phone_numbers_complete (self : PhoneValidator) (csv_file : pystr)
    (w w1 : W) (fieldnames : list pystr) (records : list (list pystr)) :
  open_csv csv_file w =
    (Return {| csv_records := fieldnames :: records; csv_failure := None |},
     w1) ->
  existsb (short_of_phone fieldnames) records = false ->
  exists t,
    read_phone_numbers self csv_file w =
      (Return (spec_phones fieldnames records), w1, t) /\
    errors_logged t = [].
Proof.
  intros Ho Hs. unfold read_phone_numbers. unfold_eff. rewrite Ho. cbn.
  unfold read_source. cbn.
  rewrite (read_rows_complete fieldnames records [] w1 Hs). cbn.
  eexists. split; reflexivity.
Qed.

(** Every run of [__init__]: the exception of the client constructor if
    it raises one; otherwise the configuration error that lists every
    missing variable, or the validator. *)
Lemma init_run (w : W) :
  match twilio_Client (os_getenv (u "TWILIO_ACCOUNT_SID") w)
                      (os_getenv (u "TWILIO_AUTH_TOKEN") w) w with
  | (Raise e, w1) => __init__ w = (Raise e, w1, [])
  | (Return _, w1) =>
      match missing_vars w1 with
      | [] =>
          exists self,
            __init__ w = (Return self, w1, []) /\
            invalid_phrases self = default_invalid_phrases
      | _ :: _ =>
          __init__ w =
            (Raise (Exn ValueError
                        (u "Відсутні змінні середовища: "
                         ++ join (u ", ") (missing_vars w1))), w1, [])
      end
  end.
Proof.
  unfold __init__, _validate_credentials. unfold_eff.
  cbn -[missing_vars].
  destruct (twilio_Client _ _ w) as [[[] | e] w1]; cbn -[missing_vars];
    [| reflexivity].
  destruct (missing_vars w1) as [| v vs]; cbn; [| reflexivity].
  eexists. split; reflexivity.
Qed.

Lemma init_invalid_phrases (w w' : W) (self : PhoneValidator)
    (t : list event) :
  __init__ w = (Return self, w', t) ->
  invalid_phrases self = default_invalid_phrases.
Proof.
  intros Hi. pose proof (init_run w) as Hr.
  destruct (twilio_Client _ _ w) as [[[] | e] w1].
  - destruct (missing_vars w1) as [| v vs].
    + destruct Hr as (self0 & Hr & Hp). rewrite Hr in Hi.
      inversion Hi. subst. exact Hp.
    + rewrite Hr in Hi. discriminate.
  - rewrite Hr in Hi. discriminate.
Qed.

(** The variables [_validate_credentials] reports are exactly the required
    ones that are unset or empty. *)
Lemma missing_vars_spec (w : W) (var : pystr) :
  In var (missing_vars w) <->
  In var required_vars /\ truthy_opt (os_getenv var w) = false.
Proof.
  unfold missing_vars. rewrite filter_In, negb_true_iff. reflexivity.
Qed.

(** C1: for every number, [validate_phone_number] returns a result whose
    status is ERROR if and only if [make_call_with_recording] returned no
    call identifier; with a call identifier the status is VALID or INVALID
    as [is_valid_number] classifies the transcript of the result. *)
Theorem validate_phone_number_status (self : PhoneValidator)
    (phone_number : pystr) (w : W) :
  exists sids w1 t1 res w' t,
    make_call_with_recording self phone_number w = (Return sids, w1, t1) /\
    validate_phone_number self phone_number w = (Return res, w', t) /\
    (status res = ERROR <-> no_call_identifier sids) /\
    (~ no_call_identifier sids ->
     status res =
       if is_valid_number self (transcribed_text res) then VALID
       else INVALID).
Proof.
  destruct (validate_phone_number_run self phone_number w)
    as (sids & w1 & t1 & res & w' & t & Hm & Hv & _ & _ & Hs).
  exists sids, w1, t1, res, w', t.
  split; [exact Hm |]. split; [exact Hv |].
  rewrite no_call_identifier_iff.
  destruct (truthy_opt (fst sids)).
  - destruct Hs as [Hs _]. split.
    + split; [| discriminate].
      rewrite Hs. destruct (is_valid_number _ _); discriminate.
    + intros _. exact Hs.
  - destruct Hs as [Hs _]. split.
    + split; auto.
    + intros Hn. exfalso. apply Hn. reflexivity.
Qed.

(** C3, as the code has it: of the four example texts only the empty one
    and the two-letter one are classified invalid; the English sentence
    holds no phrase of the (Ukrainian) denylist and is classified valid,
    while a text that holds one is classified invalid. *)
Theorem classifier_examples (w w' : W) (self : PhoneValidator)
    (t : list event) :
  __init__ w = (Return self, w', t) ->
  is_valid_number self [] = false /\
  is_valid_number self (u "ab") = false /\
  is_valid_number self (u "the number you dialed is invalid") = true /\
  is_valid_number self (u "Номер не обслуговується") = false /\
  is_valid_number self (u "hello, leave a message") = true.
Proof.
  intros Hi. apply init_invalid_phrases in Hi.
  unfold is_valid_number. rewrite Hi.
  repeat split; vm_compute; reflexivity.
Qed.

(** C7: [make_call_with_recording] always returns to its caller; when the
    provider raised an exception it returns [(None, None)] and has logged
    an error. *)
Theorem make_call_with_recording_never_raises (self : PhoneValidator)
    (phone_number : pystr) (w : W) :
  exists sids w' t,
    make_call_with_recording self phone_number w = (Return sids, w', t) /\
    match provider_failure self phone_number w with
    | Some e => sids = (None, None) /\ errors_logged t <> []
    | None => exists sid, fst sids = Some sid
    end.
Proof.
  destruct (make_call_with_recording_run self phone_number w)
    as (sids & w' & t & Hm & _ & Hf).
  exists sids, w', t. split; [exact Hm |].
  destruct (provider_failure self phone_number w); [exact Hf |].
  destruct Hf as [Hf _]. exact Hf.
Qed.

(** C8: [read_phone_numbers] always returns to its caller; when the file
    is not found, or any other exception is raised while it is opened or
    read, it returns the empty list and has logged an error. *)
Theorem read_phone_numbers_never_raises (self : PhoneValidator)
    (csv_file : pystr) (w : W) :
  exists phones w' t,
    read_phone_numbers self csv_file w = (Return phones, w', t) /\
    match read_failure csv_file w with
    | Some e => phones = [] /\ errors_logged t <> []
    | None => True
    end.
Proof.
  destruct (read_phone_numbers_run self csv_file w)
    as (phones & w' & t & Hr & _ & Hf).
  exists phones, w', t. split; [exact Hr |].
  destruct (read_failure csv_file w); [exact Hf | exact I].
Qed.

(** C9: when the reader returns the empty list, [process_phone_list]
    logs an error and returns; it neither creates the output file nor
    writes a header or a row. *)
Theorem process_phone_list_no_numbers (self : PhoneValidator)
    (input_csv output_csv : pystr) (w w1 : W) (t1 : list event) :
  read_phone_numbers self input_csv w = (Return [], w1, t1) ->
  exists t,
    process_phone_list self input_csv output_csv w = (Return tt, w1, t) /\
    existsb touches_output t = false /\
    rows_written t = [] /\
    errors_logged t <> [].
Proof.
  intros Hr.
  destruct (read_phone_numbers_run self input_csv w)
    as (phones0 & w0 & t0 & Hr0 & Hq & _).
  rewrite Hr in Hr0. inversion Hr0. subst phones0 w0 t0. clear Hr0.
  unfold process_phone_list. unfold_eff. rewrite Hr. cbn.
  eexists. split; [reflexivity |].
  assert (Hq' : existsb touches_output
                  (t1 ++ [Log LError (u "Немає номерів для обробки")])
                = false) by quiet.
  split; [exact Hq' |]. split; [apply quiet_no_rows, Hq' |].
  unfold errors_logged. rewrite flat_map_app. cbn.
  intros E. apply app_eq_nil in E. destruct E as [_ E]. discriminate.
Qed.

(** C10: for a number whose call placement gave no call identifier, the
    result has status ERROR, [call_sid] [None] and, as its
    [transcribed_text], the fixed sentence of the source, not a
    transcript. *)
Theorem validate_phone_number_error_row (self : PhoneValidator)
    (phone_number : pystr) (w w1 : W)
    (sids : option pystr * option pystr) (t1 : list event) :
  make_call_with_recording self phone_number w = (Return sids, w1, t1) ->
  no_call_identifier sids ->
  exists res w' t,
    validate_phone_number self phone_number w = (Return res, w', t) /\
    status res = ERROR /\
    call_sid res = None /\
    transcribed_text res = u "Помилка дзвінка".
Proof.
  intros Hm Hn. apply no_call_identifier_iff in Hn.
  destruct (validate_phone_number_run self phone_number w)
    as (sids0 & w0 & t0 & res & w' & t & Hm0 & Hv & _ & _ & Hs).
  rewrite Hm in Hm0. inversion Hm0. subst sids0 w0 t0.
  rewrite Hn in Hs. destruct Hs as (Hs & Htxt & Hsid).
  exists res, w', t. repeat split; assumption.
Qed.

(** Every ERROR result carries the fixed sentence and no call
    identifier. *)
Lemma error_result_text (self : PhoneValidator) (phone_number : pystr)
    (w w' : W) (res : ValidationResult) (t : list event) :
  validate_phone_number self phone_number w = (Return res, w', t) ->
  status res = ERROR ->
  call_sid res = None /\ transcribed_text res = u "Помилка дзвінка".
Proof.
  intros Hv He.
  destruct (validate_phone_number_run self phone_number w)
    as (sids0 & w0 & t0 & res0 & w0' & t0' & _ & Hv0 & _ & _ & Hs).
  rewrite Hv in Hv0. inversion Hv0. subst res0 w0' t0'.
  destruct (truthy_opt (fst sids0)).
  - destruct Hs as [Hs _]. rewrite He in Hs.
    destruct (is_valid_number _ _); discriminate.
  - destruct Hs as (_ & Htxt & Hsid). split; assumption.
Qed.

(** When the call left no recording, the transcript of the result is
    empty. *)
Lemma no_recording_empty_transcript (self : PhoneValidator)
    (phone_number : pystr) (w w1 w' : W) (call_sid : option pystr)
    (t1 t : list event) (res : ValidationResult) :
  make_call_with_recording self phone_number w =
    (Return (call_sid, None), w1, t1) ->
  truthy_opt call_sid = true ->
  validate_phone_number self phone_number w = (Return res, w', t) ->
  transcribed_text res = [].
Proof.
  intros Hm Hc Hv. revert Hv.
  unfold validate_phone_number. unfold_eff.
  cbn -[make_call_with_recording]. rewrite Hm.
  cbn -[make_call_with_recording]. rewrite Hc.
  cbn -[make_call_with_recording].
  destruct (datetime_now_isoformat w1) as [now w2].
  cbn. intros Hv. inversion Hv. reflexivity.
Qed.

End Properties.

(** ** The properties on the scripted collaborators *)

(** [Scenario.validator] is the validator [__init__] builds when every
    variable is set. *)
Example init_full_environ :
  __init__ Scenario.two_numbers =
    (Return Scenario.validator, Scenario.two_numbers, []).
Proof.
  vm_compute. reflexivity.
Qed.

(** The end-to-end scenario of the specification: the first number is
    answered by a voice mail and is VALID, the call to the second is
    rejected and gives ERROR; two rows, in the order of the input. *)
Example end_to_end :
  exists w' t,
    process_phone_list Scenario.validator (u "phone_numbers.csv")
      (u "validation_results.csv") Scenario.two_numbers = (Return tt, w', t) /\
    map phone (rows_written t) = [u "+10000000001"; u "+10000000002"] /\
    map status (rows_written t) = [VALID; ERROR] /\
    map transcribed_text (rows_written t) =
      [u "please leave your message"; u "Помилка дзвінка"].
Proof.
  do 2 eexists. split; [vm_compute; reflexivity |].
  repeat split; vm_compute; reflexivity.
Qed.

(** C3, as the specification states it, fails on the code: the English
    sentence is classified valid. *)
Lemma classifier_examples_counterexample :
  ~ (is_valid_number Scenario.validator [] = false /\
     is_valid_number Scenario.validator (u "ab") = false /\
     is_valid_number Scenario.validator
       (u "the number you dialed is invalid") = false /\
     is_valid_number Scenario.validator (u "hello, leave a message") = true).
Proof.
  intros (_ & _ & H & _). vm_compute in H. discriminate.
Qed.

Lemma classifier_examples_witness :
  is_valid_number Scenario.validator [] = false /\
  is_valid_number Scenario.validator (u "ab") = false /\
  is_valid_number Scenario.validator
    (u "the number you dialed is invalid") = true /\
  is_valid_number Scenario.validator (u "Номер не обслуговується") = false /\
  is_valid_number Scenario.validator (u "hello, leave a message") = true.
Proof.
  apply (classifier_examples Scenario.two_numbers Scenario.two_numbers
           Scenario.validator []).
  vm_compute. reflexivity.
Defined.

(** The configuration error lists every missing variable, not only the
    first. *)
Example init_without_number_and_key :
  __init__ Scenario.no_number_no_key =
    (Raise (Exn ValueError
                (u "Відсутні змінні середовища: "
                 ++ u "TWILIO_PHONE_NUMBER, OPENAI_API_KEY")),
     Scenario.no_number_no_key, []).
Proof.
  vm_compute. reflexivity.
Qed.

(** C5: on a table whose last record stops before the [phone] column the
    reader returns the empty list and logs a read error, where the
    specification keeps the phone of the first record. *)
Theorem read_phone_numbers_short_row :
  spec_phones [u "name"; u "phone"]
    [[u "alice"; u "+10000000001"]; [u "bob"]] = [u "+10000000001"] /\
  read_phone_numbers Scenario.validator (u "phone_numbers.csv")
    Scenario.short_row =
    (Return [], Scenario.short_row,
     [Log LError
        (u "Помилка читання файлу: "
         ++ u "'NoneType' object has no attribute 'strip'")]).
Proof.
  split; vm_compute; reflexivity.
Qed.

Lemma process_phone_list_no_numbers_witness :
  exists t,
    process_phone_list Scenario.validator (u "phone_numbers.csv")
      (u "validation_results.csv") Scenario.no_table =
      (Return tt, Scenario.no_table, t) /\
    existsb touches_output t = false /\
    rows_written t = [] /\
    errors_logged t <> [].
Proof.
  eapply (process_phone_list_no_numbers Scenario.validator
            (u "phone_numbers.csv") (u "validation_results.csv")
            Scenario.no_table Scenario.no_table).
  vm_compute. reflexivity.
Defined.

Lemma validate_phone_number_error_row_witness :
  exists res w' t,
    validate_phone_number Scenario.validator (u "+10000000002")
      Scenario.two_numbers = (Return res, w', t) /\
    status res = ERROR /\
    call_sid res = None /\
    transcribed_text res = u "Помилка дзвінка".
Proof.
  eapply (validate_phone_number_error_row Scenario.validator
            (u "+10000000002") Scenario.two_numbers Scenario.two_numbers
            (None, None));
    [vm_compute; reflexivity | left; reflexivity].
Defined.

(** ** Further properties of the methods *)

(** *** Trimming *)

Lemma lstrip_suffix (s : pystr) : exists b, s = b ++ lstrip s.
Proof.
  induction s as [| c s [b IH]]; cbn.
  - exists []. reflexivity.
  - destruct (is_space c).
    + exists (c :: b). cbn. rewrite <- IH. reflexivity.
    + exists []. reflexivity.
Qed.

Lemma lstrip_head (s : pystr) :
  match lstrip s with
  | [] => True
  | c :: _ => is_space c = false
  end.
Proof.
  induction s as [| c s IH]; cbn; [exact I |].
  destruct (is_space c) eqn:E; [exact IH | exact E].
Qed.

Lemma lstrip_fixed (s : pystr) :
  match s with
  | [] => True
  | c :: _ => is_space c = false
  end ->
  lstrip s = s.
Proof.
  destruct s as [| c s]; cbn; [reflexivity |].
  intros ->. reflexivity.
Qed.

Lemma lstrip_idem (s : pystr) : lstrip (lstrip s) = lstrip s.
Proof.
  apply lstrip_fixed, lstrip_head.
Qed.

Lemma rstrip_prefix (s : pystr) : exists b, s = rstrip s ++ b.
Proof.
  unfold rstrip. destruct (lstrip_suffix (rev s)) as [b Hb].
  exists (rev b). rewrite <- rev_app_distr, <- Hb, rev_involutive.
  reflexivity.
Qed.

Lemma rstrip_idem (s : pystr) : rstrip (rstrip s) = rstrip s.
Proof.
  unfold rstrip. rewrite rev_involutive, lstrip_idem. reflexivity.
Qed.

Lemma lstrip_rstrip (s : pystr) :
  match s with
  | [] => True
  | c :: _ => is_space c = false
  end ->
  lstrip (rstrip s) = rstrip s.
Proof.
  intros Hs. apply lstrip_fixed.
  destruct (rstrip_prefix s) as [b Hb].
  destruct (rstrip s) as [| c r]; [exact I |].
  rewrite Hb in Hs. exact Hs.
Qed.

(** [s.strip()] has no whitespace left to strip. *)
Lemma strip_trimmed (s : pystr) : trimmed (strip s).
Proof.
  unfold trimmed, strip.
  rewrite (lstrip_rstrip (lstrip s) (lstrip_head s)).
  apply rstrip_idem.
Qed.

Lemma strip_length (s : pystr) : (length (strip s) <= length s)%nat.
Proof.
  unfold strip.
  destruct (rstrip_prefix (lstrip s)) as [b Hb].
  destruct (lstrip_suffix s) as [a Ha].
  rewrite Ha at 2. rewrite Hb at 2. rewrite !length_app. lia.
Qed.

Lemma lstrip_spaces (s : pystr) :
  forallb is_space s = true -> lstrip s = [].
Proof.
  induction s as [| c s IH]; cbn; [reflexivity |].
  intros Hs. apply andb_true_iff in Hs. destruct Hs as [-> Hs].
  apply IH, Hs.
Qed.

(** *** The reader *)

Lemma In_skipn {A} (x : A) (n : nat) (l : list A) :
  In x (skipn n l) -> In x l.
Proof.
  intros Hx. rewrite <- (firstn_skipn n l). apply in_or_app. right. exact Hx.
Qed.

Lemma key_eqb_neq (a b : pystr) : a <> b -> key_eqb (Some a) (Some b) = false.
Proof.
  intros Hab. destruct (key_eqb (Some a) (Some b)) eqn:E; [| reflexivity].
  apply key_eqb_eq in E. inversion E. contradiction.
Qed.

Lemma dict_get_fields_other (k : pystr) (kvs : list (pystr * pystr))
    (d : dict) :
  (forall kv, In kv kvs -> k <> fst kv) ->
  dict_get (Some k)
    (fold_left (fun d kv => dict_set (Some (fst kv)) (CStr (snd kv)) d) kvs d)
  = dict_get (Some k) d.
Proof.
  revert d. induction kvs as [| kv kvs IH]; intros d Hk; cbn; [reflexivity |].
  rewrite IH by (intros kv' Hin; apply Hk; right; exact Hin).
  rewrite dict_get_set, key_eqb_neq; [reflexivity |].
  apply Hk. left. reflexivity.
Qed.

Lemma dict_get_restval_other (k : pystr) (ks : list pystr) (d : dict) :
  ~ In k ks ->
  dict_get (Some k) (fold_left (fun d k' => dict_set (Some k') CNone d) ks d)
  = dict_get (Some k) d.
Proof.
  revert d. induction ks as [| k' ks IH]; intros d Hk; cbn; [reflexivity |].
  rewrite IH by (intros Hin; apply Hk; right; exact Hin).
  rewrite dict_get_set, key_eqb_neq; [reflexivity |].
  intros E. apply Hk. left. symmetry. exact E.
Qed.

(** A row dictionary has no entry for a name that is not a field name. *)
Lemma DictReader_row_no_column (k : pystr) (fieldnames row : list pystr) :
  ~ In k fieldnames ->
  dict_get (Some k) (DictReader_row fieldnames row) = None.
Proof.
  intros Hk. unfold DictReader_row.
  assert (H0 : dict_get (Some k)
                 (fold_left
                    (fun d kv => dict_set (Some (fst kv)) (CStr (snd kv)) d)
                    (combine fieldnames row) []) = None).
  { rewrite dict_get_fields_other; [reflexivity |].
    intros [f v] Hin E. cbn in E. subst f.
    apply Hk. eapply in_combine_l. exact Hin. }
  destruct (Nat.ltb (length fieldnames) (length row)).
  - rewrite dict_get_set. cbn. exact H0.
  - destruct (Nat.ltb (length row) (length fieldnames)); [| exact H0].
    rewrite dict_get_restval_other; [exact H0 |].
    intros Hin. apply Hk. eapply In_skipn. exact Hin.
Qed.

Section ReaderProperties.

Context {W : Type} `{Collaborators W}.

Lemma read_rows_no_column (fieldnames : list pystr)
    (records : list (list pystr)) (phones : list pystr) (w : W) :
  ~ In (u "phone") fieldnames ->
  read_rows fieldnames records None phones w = (Return phones, w, []).
Proof.
  intros Hk. induction records as [| row records IH]; cbn; [reflexivity |].
  destruct row as [| c row]; [exact IH |].
  unfold phone_of_row, dict_in.
  rewrite (DictReader_row_no_column _ _ _ Hk).
  unfold_eff. rewrite IH. reflexivity.
Qed.

Lemma read_rows_short (fieldnames : list pystr)
    (records : list (list pystr)) (failure : option exn)
    (phones : list pystr) (w : W) :
  existsb (short_of_phone fieldnames) records = true ->
  exists e,
    read_rows fieldnames records failure phones w = (Raise e, w, []).
Proof.
  revert phones.
  induction records as [| row records IH]; intros phones Hs;
    [discriminate |].
  cbn [existsb] in Hs. cbn [read_rows].
  destruct row as [| c row].
  - cbn in Hs. apply IH, Hs.
  - destruct (short_of_phone fieldnames (c :: row)) eqn:Hrow.
    + cbn [short_of_phone] in Hrow. unfold phone_of_row, dict_in.
      destruct (dict_get _ _) as [[s | | l] |]; try discriminate.
      unfold_eff. eexists. reflexivity.
    + cbn [orb] in Hs. unfold_eff.
      destruct (phone_of_row _) as [[s |] | e].
      * destruct (IH (phones ++ [s]) Hs) as [e Hr]. rewrite Hr.
        eexists. reflexivity.
      * destruct (IH phones Hs) as [e Hr]. rewrite Hr.
        eexists. reflexivity.
      * eexists. reflexivity.
Qed.

Lemma read_rows_trimmed (fieldnames : list pystr)
    (records : list (list pystr)) (failure : option exn)
    (phones result : list pystr) (w w' : W) (t : list event) :
  Forall (fun p => p <> [] /\ trimmed p) phones ->
  read_rows fieldnames records failure phones w = (Return result, w', t) ->
  Forall (fun p => p <> [] /\ trimmed p) result.
Proof.
  revert phones.
  induction records as [| row records IH]; intros phones Hp; cbn [read_rows].
  - destruct failure; unfold_eff; intros E; inversion E; subst; exact Hp.
  - destruct row as [| c row]; [apply IH, Hp |].
    unfold phone_of_row, dict_in.
    destruct (dict_get _ _) as [[s | | l] |]; unfold_eff;
      try (intros E; discriminate).
    + destruct (truthy (strip s)) eqn:Ht.
      * destruct (read_rows _ _ _ (phones ++ [strip s]) w)
          as [[r w1] t1] eqn:Hr.
        destruct r as [res | e]; intros E; inversion E; subst.
        eapply IH; [| exact Hr].
        apply Forall_app. split; [exact Hp |].
        constructor; [| constructor].
        split; [| apply strip_trimmed].
        intros E0. rewrite E0 in Ht. discriminate.
      * destruct (read_rows _ _ _ phones w) as [[r w1] t1] eqn:Hr.
        destruct r as [res | e]; intros E; inversion E; subst.
        eapply IH; [exact Hp | exact Hr].
    + destruct (read_rows _ _ _ phones w) as [[r w1] t1] eqn:Hr.
      destruct r as [res | e]; intros E; inversion E; subst.
      eapply IH; [exact Hp | exact Hr].
Qed.

(** X1: on a table that opens, is read to its end and has no record short
    of the [phone] column, [read_phone_numbers] returns the trimmed,
    non-blank phone values of the records, in file order, and logs no
    error. *)
Theorem read_phone_numbers_well_formed (self : PhoneValidator)
    (csv_file : pystr) (w w1 : W) (fieldnames : list pystr)
    (records : list (list pystr)) :
  open_csv csv_file w =
    (Return {| csv_records := fieldnames :: records; csv_failure := None |},
     w1) ->
  existsb (short_of_phone fieldnames) records = false ->
  exists t,
    read_phone_numbers self csv_file w =
      (Return (spec_phones fieldnames records), w1, t) /\
    errors_logged t = [].
Proof.
  apply read_phone_numbers_complete.
Qed.

(** X2: every phone [read_phone_numbers] returns is non-empty and has no
    leading or trailing whitespace. *)
Theorem read_phone_numbers_trimmed (self : PhoneValidator)
    (csv_file : pystr) (w w' : W) (phones : list pystr) (t : list event) :
  read_phone_numbers self csv_file w = (Return phones, w', t) ->
  Forall (fun p => p <> [] /\ trimmed p) phones.
Proof.
  unfold read_phone_numbers. unfold_eff.
  destruct (open_csv csv_file w) as [[src | e] w1]; cbn.
  - unfold read_source. destruct src as [records failure]. cbn.
    destruct records as [| fieldnames records].
    + destruct failure as [e |]; cbn.
      * destruct (exn_cls e); cbn; intros E; inversion E; constructor.
      * intros E; inversion E; constructor.
    + destruct (read_rows fieldnames records failure [] w1)
        as [[r w2] t2] eqn:Hr.
      destruct r as [res | e]; cbn.
      * intros E. inversion E. subst.
        eapply read_rows_trimmed; [constructor | exact Hr].
      * destruct (exn_cls e); cbn; intros E; inversion E; constructor.
  - destruct (exn_cls e); cbn; intros E; inversion E; constructor.
Qed.

(** X3: when the header of the table has no [phone] column, every record
    is skipped: the reader returns the empty list and logs no error. *)
Theorem read_phone_numbers_no_phone_column (self : PhoneValidator)
    (csv_file : pystr) (w w1 : W) (fieldnames : list pystr)
    (records : list (list pystr)) :
  open_csv csv_file w =
    (Return {| csv_records := fieldnames :: records; csv_failure := None |},
     w1) ->
  ~ In (u "phone") fieldnames ->
  exists t,
    read_phone_numbers self csv_file w = (Return [], w1, t) /\
    errors_logged t = [].
Proof.
  intros Ho Hk. unfold read_phone_numbers. unfold_eff. rewrite Ho. cbn.
  unfold read_source. cbn.
  rewrite (read_rows_no_column fieldnames records [] w1 Hk). cbn.
  eexists. split; reflexivity.
Qed.

(** X4: one record short of the [phone] column empties the whole result:
    the reader returns the empty list and logs an error, whatever the
    other records hold. *)
Theorem read_phone_numbers_short_record (self : PhoneValidator)
    (csv_file : pystr) (w w1 : W) (fieldnames : list pystr)
    (records : list (list pystr)) (failure : option exn) :
  open_csv csv_file w =
    (Return {| csv_records := fieldnames :: records;
               csv_failure := failure |}, w1) ->
  existsb (short_of_phone fieldnames) records = true ->
  exists t,
    read_phone_numbers self csv_file w = (Return [], w1, t) /\
    errors_logged t <> [].
Proof.
  intros Ho Hs. unfold read_phone_numbers. unfold_eff. rewrite Ho. cbn.
  unfold read_source. cbn.
  destruct (read_rows_short fieldnames records failure [] w1 Hs) as [e Hr].
  rewrite Hr.
  destruct (exn_cls e); cbn; eexists; (split; [reflexivity | discriminate]).
Qed.

End ReaderProperties.

(** *** The classifier *)

Lemma starts_with_spec (p s : pystr) :
  starts_with p s = true <-> exists b, s = p ++ b.
Proof.
  revert s. induction p as [| x p IH]; intros s; cbn.
  - split; [intros _; exists s; reflexivity | reflexivity].
  - destruct s as [| y s].
    + split; [discriminate | intros [b E]; discriminate].
    + unfold cp_eqb. rewrite andb_true_iff, N.eqb_eq, IH. split.
      * intros [-> [b ->]]. exists b. reflexivity.
      * intros [b E]. inversion E. split; [reflexivity |].
        exists b. reflexivity.
Qed.

(** [p in s] holds exactly when [s] is some text, then [p], then some
    text. *)
Lemma contains_spec (p s : pystr) :
  contains p s = true <-> exists a b, s = a ++ p ++ b.
Proof.
  induction s as [| y s IH].
  - cbn [contains]. rewrite orb_false_r, starts_with_spec. split.
    + intros [b E]. exists [], b. exact E.
    + intros (a & b & E). destruct a as [| x a]; [| discriminate].
      exists b. exact E.
  - cbn [contains]. rewrite orb_true_iff, IH, starts_with_spec. split.
    + intros [[b E] | (a & b & E)].
      * exists [], b. exact E.
      * exists (y :: a), b. cbn. rewrite E. reflexivity.
    + intros (a & b & E). destruct a as [| x a].
      * left. exists b. exact E.
      * right. inversion E. exists a, b. reflexivity.
Qed.

Lemma strip_spaces (s : pystr) : forallb is_space s = true -> strip s = [].
Proof.
  intros Hs. unfold strip. rewrite (lstrip_spaces s Hs). reflexivity.
Qed.

Lemma is_valid_number_iff (self : PhoneValidator) (text : pystr) :
  is_valid_number self text = true <->
  text <> [] /\
  (forall phrase a b,
      In phrase (invalid_phrases self) -> lower text <> a ++ phrase ++ b) /\
  (3 <= length (strip text))%nat.
Proof.
  unfold is_valid_number.
  destruct text as [| c text].
  - cbn. split; [discriminate | intros (E & _); contradiction].
  - cbn [truthy negb].
    destruct (existsb _ (invalid_phrases self)) eqn:Hd.
    + split; [discriminate |]. intros (_ & Hn & _). exfalso.
      apply existsb_exists in Hd. destruct Hd as (phrase & Hin & Hc).
      apply contains_spec in Hc. destruct Hc as (a & b & E).
      exact (Hn phrase a b Hin E).
    + destruct (Nat.ltb (length (strip (c :: text))) 3) eqn:Hl.
      * apply Nat.ltb_lt in Hl. split; [discriminate |].
        intros (_ & _ & H3). lia.
      * apply Nat.ltb_ge in Hl. split; [| reflexivity].
        intros _. split; [discriminate |]. split; [| exact Hl].
        intros phrase a b Hin E.
        assert (Hc : existsb
                       (fun phrase => contains phrase (lower (c :: text)))
                       (invalid_phrases self) = true).
        { apply existsb_exists. exists phrase. split; [exact Hin |].
          apply contains_spec. exists a, b. exact E. }
        rewrite Hc in Hd. discriminate.
Qed.

(** X5: [is_valid_number] accepts a text exactly when it is not empty, no
    phrase of the denylist occurs anywhere in its lower-cased form, and
    at least three characters remain once it is trimmed. *)
Theorem is_valid_number_spec (self : PhoneValidator) (text : pystr) :
  is_valid_number self text = true <->
  text <> [] /\
  (forall phrase a b,
      In phrase (invalid_phrases self) -> lower text <> a ++ phrase ++ b) /\
  (3 <= length (strip text))%nat.
Proof.
  apply is_valid_number_iff.
Qed.

(** X6: a text made of whitespace only is never valid, whatever the
    denylist. *)
Theorem is_valid_number_blank (self : PhoneValidator) (text : pystr) :
  forallb is_space text = true -> is_valid_number self text = false.
Proof.
  intros Hs. unfold is_valid_number.
  destruct (truthy text); [| reflexivity]. cbn [negb].
  destruct (existsb _ _); [reflexivity |].
  rewrite (strip_spaces text Hs). reflexivity.
Qed.

Lemma is_valid_number_spec_witness :
  u "please leave your message" <> [] /\
  (forall phrase a b,
      In phrase (invalid_phrases Scenario.validator) ->
      lower (u "please leave your message") <> a ++ phrase ++ b) /\
  (3 <= length (strip (u "please leave your message")))%nat.
Proof.
  apply (is_valid_number_spec Scenario.validator
           (u "please leave your message")).
  vm_compute. reflexivity.
Defined.

Lemma is_valid_number_blank_witness :
  is_valid_number Scenario.validator (u "   ") = false.
Proof.
  apply (is_valid_number_blank Scenario.validator (u "   ")).
  vm_compute. reflexivity.
Defined.

(** *** The call, the download and the transcription *)

Lemma sleeps_app (t1 t2 : list event) :
  sleeps (t1 ++ t2) = sleeps t1 ++ sleeps t2.
Proof.
  unfold sleeps. apply flat_map_app.
Qed.

Lemma errors_logged_app (t1 t2 : list event) :
  errors_logged (t1 ++ t2) = errors_logged t1 ++ errors_logged t2.
Proof.
  unfold errors_logged. apply flat_map_app.
Qed.

Section StageProperties.

Context {W : Type} `{Collaborators W}.

Lemma make_call_with_recording_trace (self : PhoneValidator)
    (phone_number : pystr) (w : W) :
  exists sids w' t,
    make_call_with_recording self phone_number w = (Return sids, w', t) /\
    sleeps t =
      match calls_create (create_args self phone_number) w with
      | (Return _, _) => [recording_duration self + 2]
      | (Raise _, _) => []
      end /\
    match fst sids with
    | Some _ => True
    | None => snd sids = None
    end.
Proof.
  unfold make_call_with_recording. unfold_eff.
  destruct (calls_create _ w) as [[sid | e] w1]; cbn.
  - destruct (recordings_list sid 1 w1) as [[recs | e] w2]; cbn.
    + do 3 eexists. repeat split; reflexivity.
    + destruct (exn_cls e); cbn; do 3 eexists; repeat split; reflexivity.
  - destruct (exn_cls e); cbn; do 3 eexists; repeat split; reflexivity.
Qed.

Lemma download_recording_trace (self : PhoneValidator)
    (recording_sid : option pystr) (w : W) :
  exists file w' t,
    download_recording self recording_sid w = (Return file, w', t) /\
    sleeps t = [] /\
    match file with
    | Some name =>
        exists sid,
          recording_sid = Some sid /\
          sid <> [] /\
          name = u "recording_" ++ sid ++ u ".mp3" /\
          errors_logged t = []
    | None =>
        if truthy_opt recording_sid then errors_logged t <> []
        else w' = w /\ t = []
    end.
Proof.
  unfold download_recording.
  destruct recording_sid as [[| c sid] |]; unfold_eff; cbn.
  - do 3 eexists. repeat split; reflexivity.
  - destruct (recordings_fetch _ w) as [[uri | e] w1]; cbn.
    + destruct (requests_get _ _ w1) as [[[code content] | e] w2]; cbn.
      * destruct (Nat.eqb code 200); cbn.
        -- destruct (write_binary _ _ w2) as [[[] | e] w3]; cbn;
             do 3 eexists.
           ++ split; [reflexivity | split; [reflexivity |]].
              eexists. split; [reflexivity |].
              split; [discriminate | split; reflexivity].
           ++ split; [reflexivity | split; [reflexivity | discriminate]].
        -- do 3 eexists.
           split; [reflexivity | split; [reflexivity | discriminate]].
      * do 3 eexists.
        split; [reflexivity | split; [reflexivity | discriminate]].
    + do 3 eexists.
      split; [reflexivity | split; [reflexivity | discriminate]].
  - do 3 eexists. repeat split; reflexivity.
Qed.

Lemma transcribe_audio_trace (self : PhoneValidator)
    (audio_file : option pystr) (w : W) :
  exists text w' t,
    transcribe_audio self audio_file w = (Return text, w', t) /\
    sleeps t = [] /\
    if audio_present audio_file w then errors_logged t = [] \/ text = []
    else text = [] /\ w' = w /\ t = [].
Proof.
  unfold transcribe_audio, audio_present.
  destruct audio_file as [[| c path] |]; unfold_eff; cbn.
  - do 3 eexists. repeat split; reflexivity.
  - destruct (os_path_exists _ w); cbn.
    + destruct (open_binary _ w) as [[f | e] w1]; cbn.
      * destruct (audio_transcribe _ f _ w1) as [[tr | e] w2]; cbn.
        -- destruct (os_remove _ w2) as [[[] | e] w3]; cbn;
             do 3 eexists;
             (split; [reflexivity | split; [reflexivity |]]);
             [left | right]; reflexivity.
        -- do 3 eexists. split; [reflexivity | split; [reflexivity |]].
           right; reflexivity.
      * do 3 eexists. split; [reflexivity | split; [reflexivity |]].
        right; reflexivity.
    + do 3 eexists. repeat split; reflexivity.
  - do 3 eexists. repeat split; reflexivity.
Qed.

(** X7: when the call was created but the listing of its recordings
    raises, [make_call_with_recording] has slept, logs an error and
    returns [(None, None)]: the identifier of the call that was placed is
    not returned. *)
Theorem make_call_with_recording_listing_fails (self : PhoneValidator)
    (phone_number sid : pystr) (w w1 w2 : W) (e : exn) :
  calls_create (create_args self phone_number) w = (Return sid, w1) ->
  recordings_list sid 1 w1 = (Raise e, w2) ->
  exists t,
    make_call_with_recording self phone_number w =
      (Return (None, None), w2, t) /\
    sleeps t = [recording_duration self + 2] /\
    errors_logged t <> [].
Proof.
  intros Hc Hl. unfold make_call_with_recording. unfold_eff.
  rewrite Hc. cbn. rewrite Hl. cbn.
  destruct (exn_cls e); cbn; eexists;
    (split; [reflexivity | split; [reflexivity | discriminate]]).
Qed.

(** X8: [make_call_with_recording] sleeps [recording_duration + 2]
    seconds, once, exactly when the call was created, and never returns a
    recording identifier without a call identifier. *)
Theorem make_call_with_recording_sleeps (self : PhoneValidator)
    (phone_number : pystr) (w : W) :
  exists sids w' t,
    make_call_with_recording self phone_number w = (Return sids, w', t) /\
    sleeps t =
      match calls_create (create_args self phone_number) w with
      | (Return _, _) => [recording_duration self + 2]
      | (Raise _, _) => []
      end /\
    match fst sids with
    | Some _ => True
    | None => snd sids = None
    end.
Proof.
  apply make_call_with_recording_trace.
Qed.

(** X9: [download_recording] never raises.  A file name it returns is
    [recording_<sid>.mp3] for the identifier given, which is then not
    empty, and no error was logged; when it returns [None] for such an
    identifier it has logged an error; for no identifier, or the empty
    one, it returns [None] and has done nothing at all. *)
Theorem download_recording_result (self : PhoneValidator)
    (recording_sid : option pystr) (w : W) :
  exists file w' t,
    download_recording self recording_sid w = (Return file, w', t) /\
    match file with
    | Some name =>
        exists sid,
          recording_sid = Some sid /\
          sid <> [] /\
          name = u "recording_" ++ sid ++ u ".mp3" /\
          errors_logged t = []
    | None =>
        if truthy_opt recording_sid then errors_logged t <> []
        else w' = w /\ t = []
    end /\
    (truthy_opt recording_sid = false -> file = None).
Proof.
  destruct (download_recording_trace self recording_sid w)
    as (file & w' & t & Hd & _ & Hf).
  exists file, w', t. split; [exact Hd |]. split; [exact Hf |].
  intros Hn. destruct file as [name |]; [| reflexivity].
  destruct Hf as (sid & -> & Hs & _).
  destruct sid; [contradiction | discriminate].
Qed.

(** X10: when the download answers with a status other than 200,
    [download_recording] returns [None], logs an error and writes no
    file: the state is the one the request left. *)
Theorem download_recording_bad_status (self : PhoneValidator)
    (sid uri : pystr) (w w1 w2 : W) (status_code : nat) (content : list N) :
  sid <> [] ->
  recordings_fetch sid w = (Return uri, w1) ->
  requests_get
    (u "https://api.twilio.com" ++ replace (u ".json") (u ".mp3") uri)
    (twilio_account_sid self, twilio_auth_token self) w1 =
    (Return (status_code, content), w2) ->
  status_code <> 200 ->
  download_recording self (Some sid) w =
    (Return None, w2,
     [Log LError (u "Не вдалося завантажити запис " ++ sid)]).
Proof.
  intros Hs Hf Hg Hc. unfold download_recording.
  destruct sid as [| c sid]; [contradiction |].
  unfold_eff. rewrite Hf. cbn. rewrite Hg. cbn.
  apply Nat.eqb_neq in Hc. rewrite Hc. reflexivity.
Qed.

(** X11: [transcribe_audio] never raises.  Without a recording file it
    returns the empty text and does nothing; with one, it returns the
    empty text whenever it has logged an error. *)
Theorem transcribe_audio_result (self : PhoneValidator)
    (audio_file : option pystr) (w : W) :
  exists text w' t,
    transcribe_audio self audio_file w = (Return text, w', t) /\
    if audio_present audio_file w then errors_logged t = [] \/ text = []
    else text = [] /\ w' = w /\ t = [].
Proof.
  destruct (transcribe_audio_trace self audio_file w)
    as (text & w' & t & Hd & _ & Hf).
  exists text, w', t. split; assumption.
Qed.

(** X12: when the recording was transcribed but its file cannot be
    removed, [transcribe_audio] logs the error and returns the empty
    text: the transcript obtained is dropped. *)
Theorem transcribe_audio_removal_fails (self : PhoneValidator)
    (path : pystr) (w w1 w2 w3 : W) (f : list N) (tr : option pystr)
    (e : exn) :
  path <> [] ->
  os_path_exists path w = true ->
  open_binary path w = (Return f, w1) ->
  audio_transcribe (u "whisper-1") f (u "uk") w1 = (Return tr, w2) ->
  os_remove path w2 = (Raise e, w3) ->
  exists t,
    transcribe_audio self (Some path) w = (Return [], w3, t) /\
    errors_logged t = [u "Помилка розпізнавання: " ++ exn_str e].
Proof.
  intros Hp He Ho Ht Hr. unfold transcribe_audio.
  destruct path as [| c path]; [contradiction |].
  unfold_eff. rewrite He. cbn. rewrite Ho. cbn. rewrite Ht. cbn.
  rewrite Hr. cbn. eexists. split; reflexivity.
Qed.

(** When opening, transcription and removal all succeed,
    [transcribe_audio] returns the text of the response in lower case
    (the empty text when the response has none) and logs no error. *)
Lemma transcribe_audio_success (self : PhoneValidator)
    (path : pystr) (w w1 w2 w3 : W) (f : list N) (tr : option pystr) :
  path <> [] ->
  os_path_exists path w = true ->
  open_binary path w = (Return f, w1) ->
  audio_transcribe (u "whisper-1") f (u "uk") w1 = (Return tr, w2) ->
  os_remove path w2 = (Return tt, w3) ->
  exists t,
    transcribe_audio self (Some path) w =
      (Return (lower (transcript_text tr)), w3, t) /\
    errors_logged t = [].
Proof.
  intros Hp He Ho Ht Hr. unfold transcribe_audio.
  destruct path as [| c path]; [contradiction |].
  unfold_eff. rewrite He. cbn. rewrite Ho. cbn. rewrite Ht. cbn.
  rewrite Hr. cbn. eexists. split; reflexivity.
Qed.

End StageProperties.

(** *** One number, and the batch *)

Lemma count_status_total (rows : list ValidationResult) :
  count_status VALID rows + count_status INVALID rows
  + count_status ERROR rows = length rows.
Proof.
  unfold count_status.
  induction rows as [| r rows IH]; [reflexivity |].
  cbn [filter length]. destruct (status r); cbn [status_eqb length]; lia.
Qed.

Lemma output_events_app (t1 t2 : list event) :
  output_events (t1 ++ t2) = output_events t1 ++ output_events t2.
Proof.
  unfold output_events. apply filter_app.
Qed.

Lemma quiet_no_output_events (t : list event) :
  existsb touches_output t = false -> output_events t = [].
Proof.
  unfold output_events.
  induction t as [| e t IH]; cbn; [reflexivity |].
  destruct (touches_output e); cbn; [discriminate | exact IH].
Qed.

Section BatchProperties.

Context {W : Type} `{Collaborators W}.

Lemma validate_phone_number_trace (self : PhoneValidator)
    (phone_number : pystr) (w : W) :
  exists res w' t,
    validate_phone_number self phone_number w = (Return res, w', t) /\
    existsb touches_output t = false /\
    phone res = phone_number /\
    (sleeps t = [] \/ sleeps t = [recording_duration self + 2]).
Proof.
  destruct (make_call_with_recording_run self phone_number w)
    as (sids & w1 & t1 & Hm & Hq1 & _).
  destruct (make_call_with_recording_trace self phone_number w)
    as (sids' & w1' & t1' & Hm' & Hs1 & _).
  rewrite Hm in Hm'. inversion Hm'. subst sids' w1' t1'. clear Hm'.
  assert (Hs : sleeps t1 = [] \/ sleeps t1 = [recording_duration self + 2]).
  { rewrite Hs1.
    destruct (calls_create _ w) as [[sid | e] w0]; [right | left];
      reflexivity. }
  clear Hs1.
  unfold validate_phone_number. unfold_eff.
  cbn -[make_call_with_recording download_recording transcribe_audio].
  rewrite Hm. destruct sids as [cs rs].
  cbn -[make_call_with_recording download_recording transcribe_audio].
  destruct (truthy_opt cs);
    cbn -[make_call_with_recording download_recording transcribe_audio].
  - destruct (download_recording_run self rs w1)
      as (file & w2 & t2 & Hd & Hq2 & _).
    destruct (download_recording_trace self rs w1)
      as (file' & w2' & t2' & Hd' & Hs2 & _).
    rewrite Hd in Hd'. inversion Hd'. subst file' w2' t2'. clear Hd'.
    rewrite Hd.
    destruct (truthy_opt file).
    + destruct (transcribe_audio_run self file w2)
        as (text & w3 & t3 & Htr & Hq3).
      destruct (transcribe_audio_trace self file w2)
        as (text' & w3' & t3' & Htr' & Hs3 & _).
      rewrite Htr in Htr'. inversion Htr'. subst text' w3' t3'. clear Htr'.
      rewrite Htr.
      destruct (datetime_now_isoformat w3) as [now w4].
      do 3 eexists. split; [reflexivity |].
      split; [quiet |]. split; [reflexivity |].
      cbn [sleeps flat_map app]. fold (sleeps (t1 ++ t2 ++ t3 ++ [Log LInfo
        (u "Результат для " ++ phone_number ++ u ": " ++
         status_str (if is_valid_number self text then VALID else INVALID))])).
      rewrite !sleeps_app, Hs2, Hs3. cbn. rewrite app_nil_r. exact Hs.
    + destruct (datetime_now_isoformat w2) as [now w3].
      do 3 eexists. split; [reflexivity |].
      split; [quiet |]. split; [reflexivity |].
      cbn [sleeps flat_map app]. fold (sleeps (t1 ++ t2 ++ [] ++ [Log LInfo
        (u "Результат для " ++ phone_number ++ u ": " ++
         status_str (if is_valid_number self [] then VALID else INVALID))])).
      rewrite !sleeps_app, Hs2. cbn. rewrite app_nil_r. exact Hs.
  - destruct (datetime_now_isoformat w1) as [now w2].
    do 3 eexists. split; [reflexivity |].
    split; [quiet |]. split; [reflexivity |].
    cbn [sleeps flat_map app]. fold (sleeps (t1 ++ [])).
    rewrite app_nil_r. exact Hs.
Qed.

(** X13: when the call placement gave no call identifier,
    [validate_phone_number] only reads the clock after it: nothing is
    downloaded or transcribed, and the result carries the number and the
    time read. *)
Theorem validate_phone_number_call_failed (self : PhoneValidator)
    (phone_number : pystr) (w w1 : W)
    (sids : option pystr * option pystr) (t1 : list event) :
  make_call_with_recording self phone_number w = (Return sids, w1, t1) ->
  no_call_identifier sids ->
  exists res,
    validate_phone_number self phone_number w =
      (Return res, snd (datetime_now_isoformat w1),
       Log LInfo (u "Перевірка номера: " ++ phone_number) :: t1) /\
    phone res = phone_number /\
    timestamp res = fst (datetime_now_isoformat w1).
Proof.
  intros Hm Hn. apply no_call_identifier_iff in Hn.
  unfold validate_phone_number. unfold_eff.
  cbn -[make_call_with_recording]. rewrite Hm.
  destruct sids as [cs rs]. cbn [fst] in Hn.
  cbn -[make_call_with_recording]. rewrite Hn.
  cbn -[make_call_with_recording].
  destruct (datetime_now_isoformat w1) as [now w2]. cbn.
  rewrite app_nil_r. eexists. repeat split; reflexivity.
Qed.

(** X14: a result with status VALID always has a call identifier, and a
    transcript the classifier accepts: not empty, free of denylist
    phrases, with at least three characters once trimmed. *)
Theorem validate_phone_number_valid_row (self : PhoneValidator)
    (phone_number : pystr) (w w' : W) (res : ValidationResult)
    (t : list event) :
  validate_phone_number self phone_number w = (Return res, w', t) ->
  status res = VALID ->
  truthy_opt (call_sid res) = true /\
  is_valid_number self (transcribed_text res) = true /\
  (3 <= length (strip (transcribed_text res)))%nat.
Proof.
  intros Hv Hs.
  destruct (validate_phone_number_run self phone_number w)
    as (sids & w1 & t1 & res0 & w0' & t0' & _ & Hv0 & _ & _ & Hc).
  rewrite Hv in Hv0. inversion Hv0. subst res0 w0' t0'.
  destruct (truthy_opt (fst sids)) eqn:Hsid.
  - destruct Hc as [Hst Hcs]. rewrite Hcs.
    split; [exact Hsid |].
    assert (Hvalid : is_valid_number self (transcribed_text res) = true).
    { destruct (is_valid_number self (transcribed_text res));
        [reflexivity |]. rewrite Hs in Hst. discriminate. }
    split; [exact Hvalid |].
    apply is_valid_number_iff in Hvalid. apply Hvalid.
  - destruct Hc as [Hst _]. rewrite Hs in Hst. discriminate.
Qed.

(** X15: [validate_phone_number] never raises, never touches the output
    file, returns a result for the number it was given, and sleeps at
    most once, for [recording_duration + 2] seconds. *)
Theorem validate_phone_number_result (self : PhoneValidator)
    (phone_number : pystr) (w : W) :
  exists res w' t,
    validate_phone_number self phone_number w = (Return res, w', t) /\
    output_events t = [] /\
    phone res = phone_number /\
    (sleeps t = [] \/ sleeps t = [recording_duration self + 2]).
Proof.
  destruct (validate_phone_number_trace self phone_number w)
    as (res & w' & t & Hv & Hq & Hp & Hs).
  exists res, w', t.
  split; [exact Hv |]. split; [apply quiet_no_output_events, Hq |].
  split; assumption.
Qed.

Lemma quiet_no_rows_or_pauses (delay : nat) (t : list event) :
  existsb touches_output t = false ->
  Forall (fun n => n <> delay) (sleeps t) ->
  filter (row_or_pause delay) t = [].
Proof.
  induction t as [| e t IH]; [reflexivity |].
  destruct e; cbn; intros Hq Hs; try discriminate; try (apply IH; assumption).
  inversion Hs as [| n l Hn Hl]; subst.
  apply Nat.eqb_neq in Hn. rewrite Hn. apply IH; assumption.
Qed.

(** The loop of [process_phone_list] on an output file that accepts every
    operation: it returns, having written and flushed one row per number,
    each the result of the validation of that number, in order. *)
Lemma process_loop_written (self : PhoneValidator) (output_csv : pystr)
    (total : nat) (phones : list pystr) :
  writable (W := W) output_csv ->
  forall (i : nat) (results : list ValidationResult) (w : W),
  exists rows w' t,
    process_loop self output_csv total i phones results w =
      (Return (results ++ rows), w', t) /\
    output_events t = row_writes output_csv rows /\
    rows_written t = rows /\
    map phone rows = phones /\
    Forall2 (validated (W := W) self) phones rows.
Proof.
  intros (_ & _ & Hrow & Hflush).
  induction phones as [| p phones IH]; intros i results w.
  - exists [], w, []. cbn. rewrite app_nil_r.
    repeat split; try reflexivity. constructor.
  - cbn [process_loop]. unfold_eff.
    destruct (validate_phone_number_trace self p w)
      as (res & w2 & t2 & Hv & Hq & Hp & _).
    cbn -[validate_phone_number process_loop Nat.ltb]. rewrite Hv.
    destruct (Hrow res w2) as [w3 Hwr]. rewrite Hwr.
    destruct (Hflush w3) as [w4 Hfl]. rewrite Hfl.
    destruct (IH (S i) (results ++ [res]) w4)
      as (rows & w5 & t5 & Hl & Ho & Hr & Hm & Hval).
    pose proof (quiet_no_rows t2 Hq) as Hq'.
    apply quiet_no_output_events in Hq.
    destruct (Nat.ltb i total);
      cbn -[validate_phone_number process_loop Nat.ltb];
      rewrite Hl;
      exists (res :: rows); do 2 eexists;
      (split; [rewrite <- app_assoc; reflexivity |]);
      (split; [| split; [| split;
                            [cbn [map]; rewrite Hp, Hm; reflexivity |]]]).
    + unfold output_events in *. cbn [filter touches_output app].
      rewrite !filter_app, Hq. cbn [filter touches_output app].
      rewrite Ho. reflexivity.
    + unfold rows_written in *. cbn [flat_map app].
      rewrite !flat_map_app, Hq'. cbn [flat_map app].
      rewrite Hr. reflexivity.
    + constructor; [| exact Hval]. exists w, w2, t2. exact Hv.
    + unfold output_events in *. cbn [filter touches_output app].
      rewrite !filter_app, Hq. cbn [filter touches_output app].
      rewrite Ho. reflexivity.
    + unfold rows_written in *. cbn [flat_map app].
      rewrite !flat_map_app, Hq'. cbn [flat_map app].
      rewrite Hr. reflexivity.
    + constructor; [| exact Hval]. exists w, w2, t2. exact Hv.
Qed.

(** Where the loop pauses, when it runs to the last index [total]: after
    every row but the last. *)
Lemma process_loop_pauses (self : PhoneValidator) (output_csv : pystr)
    (total : nat) (phones : list pystr) :
  writable (W := W) output_csv ->
  call_delay self <> recording_duration self + 2 ->
  forall (i : nat) (results : list ValidationResult) (w : W),
  i + length phones = S total ->
  exists rows w' t,
    process_loop self output_csv total i phones results w =
      (Return (results ++ rows), w', t) /\
    filter (row_or_pause (call_delay self)) t =
      rows_and_pauses output_csv (call_delay self) rows /\
    length rows = length phones.
Proof.
  intros (_ & _ & Hrow & Hflush) Hneq.
  induction phones as [| p phones IH]; intros i results w Hi.
  - exists [], w, []. cbn. rewrite app_nil_r. repeat split; reflexivity.
  - cbn [process_loop]. unfold_eff.
    destruct (validate_phone_number_trace self p w)
      as (res & w2 & t2 & Hv & Hq & _ & Hs).
    cbn -[validate_phone_number process_loop Nat.ltb]. rewrite Hv.
    destruct (Hrow res w2) as [w3 Hwr]. rewrite Hwr.
    destruct (Hflush w3) as [w4 Hfl]. rewrite Hfl.
    assert (Hi' : S i + length phones = S total)
      by (cbn [length] in Hi; lia).
    destruct (IH (S i) (results ++ [res]) w4 Hi')
      as (rows & w5 & t5 & Hl & Hf & Hlen).
    assert (Hf2 : filter (row_or_pause (call_delay self)) t2 = []).
    { apply quiet_no_rows_or_pauses; [exact Hq |].
      destruct Hs as [-> | ->]; [constructor |].
      constructor; [| constructor].
      intros E. apply Hneq. symmetry. exact E. }
    destruct (Nat.ltb i total) eqn:Hlt;
      cbn -[validate_phone_number process_loop Nat.ltb];
      rewrite Hl;
      exists (res :: rows); do 2 eexists;
      (split; [rewrite <- app_assoc; reflexivity |]);
      (split; [| cbn [length]; rewrite Hlen; reflexivity]).
    + cbn [filter row_or_pause app].
      rewrite !filter_app, Hf2. cbn [filter row_or_pause app].
      rewrite Nat.eqb_refl, Hf.
      apply Nat.ltb_lt in Hlt.
      destruct rows as [| r rows]; [cbn [length] in *; lia | reflexivity].
    + cbn [filter row_or_pause app].
      rewrite !filter_app, Hf2. cbn [filter row_or_pause app].
      rewrite Hf.
      apply Nat.ltb_ge in Hlt.
      destruct rows as [| r rows]; [reflexivity | cbn [length] in *; lia].
Qed.

Lemma read_phone_numbers_logs_only (self : PhoneValidator)
    (csv_file : pystr) (w : W) :
  exists phones w' t,
    read_phone_numbers self csv_file w = (Return phones, w', t) /\
    sleeps t = [].
Proof.
  unfold read_phone_numbers. unfold_eff.
  destruct (open_csv csv_file w) as [[src | e] w1]; cbn.
  - destruct (read_source src w1) as [[r w2] t2] eqn:Hr.
    assert (Ht2 : t2 = []).
    { unfold read_source in Hr. destruct (csv_records src) as [| f rs].
      - destruct (csv_failure src); inversion Hr; reflexivity.
      - destruct (read_rows_run f rs (csv_failure src) [] w1) as [r0 Hr0].
        rewrite Hr0 in Hr. inversion Hr. reflexivity. }
    subst t2. destruct r as [phones | e]; cbn.
    + do 3 eexists. split; reflexivity.
    + destruct (exn_cls e); cbn; do 3 eexists; split; reflexivity.
  - destruct (exn_cls e); cbn; do 3 eexists; split; reflexivity.
Qed.

(** The whole trace of a batch over a non-empty list, once the output
    file is open and has its header. *)
Lemma process_phone_list_trace (self : PhoneValidator)
    (input_csv output_csv : pystr) (w w1 w2 w3 w4 : W) (p : pystr)
    (ps : list pystr) (rows : list ValidationResult) (t1 t4 : list event) :
  read_phone_numbers self input_csv w = (Return (p :: ps), w1, t1) ->
  open_output output_csv w1 = (Return tt, w2) ->
  writer_writeheader output_csv fieldnames_out w2 = (Return tt, w3) ->
  process_loop self output_csv (length (p :: ps)) 1 (p :: ps) [] w3 =
    (Return rows, w4, t4) ->
  process_phone_list self input_csv output_csv w =
    (Return tt, w4,
     t1 ++ OpenOutput output_csv :: WriteHeader output_csv fieldnames_out
        :: t4 ++ summary_logs output_csv rows).
Proof.
  intros Hr Ho Hh Hl. unfold process_phone_list. unfold_eff.
  rewrite Hr.
  cbn -[process_loop validate_phone_number length fieldnames_out].
  rewrite Ho.
  cbn -[process_loop validate_phone_number length fieldnames_out].
  rewrite Hh.
  cbn -[process_loop validate_phone_number length fieldnames_out].
  rewrite Hl. reflexivity.
Qed.

Lemma process_phone_list_returns (self : PhoneValidator)
    (input_csv output_csv : pystr) (w : W) :
  writable (W := W) output_csv ->
  exists w' t,
    process_phone_list self input_csv output_csv w = (Return tt, w', t).
Proof.
  intros Hw.
  destruct (read_phone_numbers_run self input_csv w)
    as (phones & w1 & t1 & Hr & _ & _).
  destruct phones as [| p ps].
  - unfold process_phone_list. unfold_eff. rewrite Hr. cbn.
    do 2 eexists. reflexivity.
  - pose proof Hw as (Hopen & Hhead & _).
    destruct (Hopen w1) as [w2 Ho].
    destruct (Hhead fieldnames_out w2) as [w3 Hh].
    destruct (process_loop_written self output_csv (length (p :: ps))
                (p :: ps) Hw 1 [] w3) as (rows & w4 & t4 & Hl & _).
    do 2 eexists.
    exact (process_phone_list_trace self input_csv output_csv w w1 w2 w3 w4
             p ps rows t1 t4 Hr Ho Hh Hl).
Qed.


(** X16: when the output file accepts every operation,
    [process_phone_list] never raises: no failure of the reader, of the
    provider, of the download or of the transcription aborts the batch. *)
Theorem process_phone_list_never_raises (self : PhoneValidator)
    (input_csv output_csv : pystr) (w : W) :
  writable (W := W) output_csv ->
  exists w' t,
    process_phone_list self input_csv output_csv w = (Return tt, w', t).
Proof.
  apply process_phone_list_returns.
Qed.

(** X17: when the reader returned numbers but the output file cannot be
    opened, [process_phone_list] raises the exception of [open]: no call
    was placed and nothing was written, the trace is the reader's. *)
Theorem process_phone_list_open_fails (self : PhoneValidator)
    (input_csv output_csv : pystr) (w w1 w2 : W) (phones : list pystr)
    (t1 : list event) (e : exn) :
  read_phone_numbers self input_csv w = (Return phones, w1, t1) ->
  phones <> [] ->
  open_output output_csv w1 = (Raise e, w2) ->
  process_phone_list self input_csv output_csv w = (Raise e, w2, t1) /\
  output_events t1 = [] /\
  sleeps t1 = [].
Proof.
  intros Hr Hne Ho. destruct phones as [| p ps]; [contradiction |].
  destruct (read_phone_numbers_run self input_csv w)
    as (phones0 & w0 & t0 & Hr0 & Hq & _).
  rewrite Hr in Hr0. inversion Hr0. subst phones0 w0 t0. clear Hr0.
  destruct (read_phone_numbers_logs_only self input_csv w)
    as (phones0 & w0 & t0 & Hr0 & Hs).
  rewrite Hr in Hr0. inversion Hr0. subst phones0 w0 t0. clear Hr0.
  split; [| split; [apply quiet_no_output_events, Hq | exact Hs]].
  unfold process_phone_list. unfold_eff. rewrite Hr.
  cbn -[process_loop validate_phone_number length]. rewrite Ho.
  cbn. rewrite app_nil_r. reflexivity.
Qed.

(** X18: when the inter-call delay differs from the wait after a call and
    the output file accepts every operation, the rows written and the
    sleeps of the inter-call delay alternate: one pause between two
    consecutive rows, none before the first row and none after the
    last. *)
Theorem process_phone_list_pauses (self : PhoneValidator)
    (input_csv output_csv : pystr) (w w1 : W) (phones : list pystr)
    (t1 : list event) :
  call_delay self <> recording_duration self + 2 ->
  read_phone_numbers self input_csv w = (Return phones, w1, t1) ->
  writable (W := W) output_csv ->
  exists rows w' t,
    process_phone_list self input_csv output_csv w = (Return tt, w', t) /\
    filter (row_or_pause (call_delay self)) t =
      rows_and_pauses output_csv (call_delay self) rows /\
    length rows = length phones.
Proof.
  intros Hneq Hr Hw.
  destruct (read_phone_numbers_run self input_csv w)
    as (phones0 & w0 & t0 & Hr0 & Hq & _).
  rewrite Hr in Hr0. inversion Hr0. subst phones0 w0 t0. clear Hr0.
  destruct (read_phone_numbers_logs_only self input_csv w)
    as (phones0 & w0 & t0 & Hr0 & Hs).
  rewrite Hr in Hr0. inversion Hr0. subst phones0 w0 t0. clear Hr0.
  assert (Hf1 : filter (row_or_pause (call_delay self)) t1 = []).
  { apply quiet_no_rows_or_pauses; [exact Hq |]. rewrite Hs. constructor. }
  destruct phones as [| p ps].
  - unfold process_phone_list. unfold_eff. rewrite Hr. cbn.
    exists []. do 2 eexists. split; [reflexivity |].
    split; [| reflexivity].
    rewrite filter_app, Hf1. reflexivity.
  - pose proof Hw as (Hopen & Hhead & _).
    destruct (Hopen w1) as [w2 Ho].
    destruct (Hhead fieldnames_out w2) as [w3 Hh].
    destruct (process_loop_pauses self output_csv (length (p :: ps))
                (p :: ps) Hw Hneq 1 [] w3 eq_refl)
      as (rows & w4 & t4 & Hl & Hf & Hlen).
    exists rows, w4. eexists.
    split; [exact (process_phone_list_trace self input_csv output_csv w w1
                     w2 w3 w4 p ps rows t1 t4 Hr Ho Hh Hl) |].
    split; [| exact Hlen].
    rewrite filter_app, Hf1. cbn [app filter row_or_pause].
    rewrite filter_app, Hf. unfold summary_logs.
    cbn [filter row_or_pause]. apply app_nil_r.
Qed.

(** X19: over a non-empty list and an output file that accepts every
    operation, a batch ends by logging its summary, and the three counts
    of the summary (VALID, INVALID, ERROR), taken over the rows written,
    add up to the number of input numbers. *)
Theorem process_phone_list_summary (self : PhoneValidator)
    (input_csv output_csv : pystr) (w w1 : W) (phones : list pystr)
    (t1 : list event) :
  read_phone_numbers self input_csv w = (Return phones, w1, t1) ->
  phones <> [] ->
  writable (W := W) output_csv ->
  exists rows w' t0,
    process_phone_list self input_csv output_csv w =
      (Return tt, w', t0 ++ summary_logs output_csv rows) /\
    rows_written (t0 ++ summary_logs output_csv rows) = rows /\
    count_status VALID rows + count_status INVALID rows
    + count_status ERROR rows = length phones.
Proof.
  intros Hr Hne Hw. destruct phones as [| p ps]; [contradiction |].
  destruct (read_phone_numbers_run self input_csv w)
    as (phones0 & w0 & t0 & Hr0 & Hq & _).
  rewrite Hr in Hr0. inversion Hr0. subst phones0 w0 t0. clear Hr0.
  pose proof Hw as (Hopen & Hhead & _).
  destruct (Hopen w1) as [w2 Ho].
  destruct (Hhead fieldnames_out w2) as [w3 Hh].
  destruct (process_loop_written self output_csv (length (p :: ps))
              (p :: ps) Hw 1 [] w3)
    as (rows & w4 & t4 & Hl & _ & Hrw & Hm & _).
  exists rows, w4,
    (t1 ++ OpenOutput output_csv :: WriteHeader output_csv fieldnames_out
        :: t4).
  split.
  - rewrite (process_phone_list_trace self input_csv output_csv w w1 w2 w3
               w4 p ps rows t1 t4 Hr Ho Hh Hl).
    rewrite <- app_assoc. reflexivity.
  - split.
    + rewrite !rows_written_app, (quiet_no_rows t1 Hq).
      unfold rows_written at 1. cbn [flat_map app]. fold (rows_written t4).
      rewrite Hrw. cbn. apply app_nil_r.
    + rewrite count_status_total, <- Hm. symmetry. apply length_map.
Qed.

(** X20: a validator [__init__] returns was built without any effect
    from an environment in which every required variable is set and not
    empty; it holds the credentials read, the fixed denylist, a delay of
    2 and a recording duration of 10 seconds. *)
Theorem init_success (w w' : W) (self : PhoneValidator) (t : list event) :
  __init__ w = (Return self, w', t) ->
  t = [] /\
  (forall var, In var required_vars ->
               truthy_opt (os_getenv var w') = true) /\
  twilio_account_sid self = os_getenv (u "TWILIO_ACCOUNT_SID") w /\
  twilio_auth_token self = os_getenv (u "TWILIO_AUTH_TOKEN") w /\
  twilio_phone_number self = os_getenv (u "TWILIO_PHONE_NUMBER") w /\
  openai_api_key self = os_getenv (u "OPENAI_API_KEY") w /\
  invalid_phrases self = default_invalid_phrases /\
  call_delay self = 2 /\
  recording_duration self = 10.
Proof.
  unfold __init__, _validate_credentials. unfold_eff.
  cbn -[missing_vars].
  destruct (twilio_Client _ _ w) as [[[] | e] w1]; cbn -[missing_vars];
    [| discriminate].
  destruct (missing_vars w1) as [| v vs] eqn:Hmiss; cbn; [| discriminate].
  intros E. inversion E. subst. cbn.
  split; [reflexivity |]. split; [| repeat split; reflexivity].
  intros var Hin.
  destruct (truthy_opt (os_getenv var w')) eqn:Ht; [reflexivity |].
  assert (Hm : In var (missing_vars w'))
    by (apply missing_vars_spec; split; assumption).
  rewrite Hmiss in Hm. contradiction.
Qed.

(** X21: when the Twilio client is constructed and some required
    variable is unset or empty, [__init__] raises a [ValueError] whose
    message lists, after the fixed prefix and separated by commas, exactly
    the required variables that are unset or empty. *)
Theorem init_lists_all_missing (w w1 : W) :
  twilio_Client (os_getenv (u "TWILIO_ACCOUNT_SID") w)
                (os_getenv (u "TWILIO_AUTH_TOKEN") w) w = (Return tt, w1) ->
  missing_vars w1 <> [] ->
  __init__ w =
    (Raise (Exn ValueError
                (u "Відсутні змінні середовища: "
                 ++ join (u ", ") (missing_vars w1))), w1, []) /\
  (forall var,
      In var (missing_vars w1) <->
      In var required_vars /\
      (os_getenv var w1 = None \/ os_getenv var w1 = Some [])).
Proof.
  intros Hc Hm. split.
  - pose proof (init_run w) as Hi. rewrite Hc in Hi.
    destruct (missing_vars w1) as [| v vs]; [contradiction | exact Hi].
  - intros var. rewrite missing_vars_spec.
    destruct (os_getenv var w1) as [[| c s] |]; cbn;
      (split; intros [Hin Hv]; split; try exact Hin; auto;
       try discriminate; try (destruct Hv; discriminate)).
Qed.



(** A download that fails returns [None]. *)
Lemma download_failure_none (self : PhoneValidator) (sid : pystr) (w : W) :
  sid <> [] ->
  download_failure self sid w ->
  exists w2 t2,
    download_recording self (Some sid) w = (Return None, w2, t2) /\
    errors_logged t2 <> [].
Proof.
  intros Hs Hf. unfold download_failure in Hf. unfold download_recording.
  destruct sid as [| c sid]; [contradiction |].
  unfold_eff.
  destruct (recordings_fetch _ w) as [[uri | e] w1]; cbn.
  - destruct (requests_get _ _ w1) as [[[code content] | e] w2]; cbn.
    + destruct (Nat.eqb code 200); cbn.
      * destruct (write_binary _ _ w2) as [[[] | e] w3]; [contradiction |].
        cbn. do 2 eexists. split; [reflexivity | discriminate].
      * do 2 eexists. split; [reflexivity | discriminate].
    + do 2 eexists. split; [reflexivity | discriminate].
  - do 2 eexists. split; [reflexivity | discriminate].
Qed.

(** A transcription that fails returns the empty text and logs an
    error. *)
Lemma transcription_failure_empty (self : PhoneValidator) (path : pystr)
    (w : W) :
  path <> [] ->
  os_path_exists path w = true ->
  transcription_failure path w ->
  exists w3 t3,
    transcribe_audio self (Some path) w = (Return [], w3, t3) /\
    errors_logged t3 <> [].
Proof.
  intros Hp He Hf. unfold transcription_failure in Hf.
  unfold transcribe_audio.
  destruct path as [| c path]; [contradiction |].
  unfold_eff. rewrite He. cbn.
  destruct (open_binary _ w) as [[f | e] w1]; cbn.
  - destruct (audio_transcribe _ f _ w1) as [[tr | e] w2]; cbn.
    + destruct (os_remove _ w2) as [[[] | e] w3]; [contradiction |].
      cbn. do 2 eexists. split; [reflexivity | discriminate].
    + do 2 eexists. split; [reflexivity | discriminate].
  - do 2 eexists. split; [reflexivity | discriminate].
Qed.

(** C6: when a call identifier was obtained and no transcript is: no
    recording was found, the download failed (a collaborator raised or
    answered with a bad status, so that [download_recording] returned
    [None]), the transcription failed (a collaborator raised, so that
    [transcribe_audio] logged an error), or the transcript is the empty
    string; then the result has the empty transcript and the status
    INVALID, hence neither ERROR nor VALID, and keeps the call
    identifier. *)
Theorem validate_phone_number_empty_transcript (self : PhoneValidator)
    (phone_number : pystr) (w w1 : W)
    (sids : option pystr * option pystr) (t1 : list event) :
  make_call_with_recording self phone_number w = (Return sids, w1, t1) ->
  truthy_opt (fst sids) = true ->
  no_transcript self (snd sids) w1 ->
  exists res w' t,
    validate_phone_number self phone_number w = (Return res, w', t) /\
    transcribed_text res = [] /\
    status res = INVALID /\ status res <> ERROR /\ status res <> VALID /\
    call_sid res = fst sids.
Proof.
  intros Hm Hc Hn. destruct sids as [cs rs]. cbn [fst snd] in *.
  destruct (download_recording_run self rs w1)
    as (file & w2 & t2 & Hd & _ & Hnone).
  assert (Htext : truthy_opt file = false \/
                  exists w3 t3,
                    transcribe_audio self file w2 = (Return [], w3, t3)).
  { destruct Hn as [Hrs | sid Hsid Hf | w2' t2' Hd'
                   | path w2' t2' Hd' Hf
                   | file' w2' w3 t2' t3 text Hd' Ht He
                   | file' w2' w3 t2' t3 Hd' Ht].
    - left. rewrite (Hnone Hrs). reflexivity.
    - left. subst rs. destruct sid as [| c sid].
      + rewrite (Hnone eq_refl). reflexivity.
      + destruct (download_failure_none self (c :: sid) w1)
          as (w2' & t2' & Hd' & _); [discriminate | exact Hf |].
        rewrite Hd in Hd'. inversion Hd'. reflexivity.
    - left. rewrite Hd in Hd'. inversion Hd'. reflexivity.
    - rewrite Hd in Hd'. inversion Hd'. subst file w2' t2'.
      destruct path as [| c path]; [left; reflexivity | right].
      destruct (os_path_exists (c :: path) w2) eqn:He.
      + destruct (transcription_failure_empty self (c :: path) w2)
          as (w3 & t3 & Ht & _); [discriminate | exact He | exact Hf |].
        exists w3, t3. exact Ht.
      + exists w2, []. unfold transcribe_audio. unfold_eff.
        rewrite He. reflexivity.
    - right. rewrite Hd in Hd'. inversion Hd'. subst file' w2' t2'.
      exists w3, t3.
      destruct (transcribe_audio_trace self file w2)
        as (text0 & w0 & t0 & Ht0 & _ & Hcase).
      rewrite Ht in Ht0. inversion Ht0. subst text0 w0 t0.
      destruct (audio_present file w2).
      + destruct Hcase as [E | ->]; [contradiction | exact Ht].
      + destruct Hcase as (-> & _). exact Ht.
    - right. rewrite Hd in Hd'. inversion Hd'. subst file' w2' t2'.
      exists w3, t3. exact Ht. }
  unfold validate_phone_number. unfold_eff.
  cbn -[make_call_with_recording download_recording transcribe_audio].
  rewrite Hm.
  cbn -[make_call_with_recording download_recording transcribe_audio].
  rewrite Hc.
  cbn -[make_call_with_recording download_recording transcribe_audio].
  rewrite Hd.
  destruct (truthy_opt file).
  - destruct Htext as [E | (w3 & t3 & Ht)]; [discriminate |].
    rewrite Ht.
    destruct (datetime_now_isoformat w3) as [now w4].
    do 3 eexists. split; [reflexivity |].
    cbn. repeat split; discriminate.
  - destruct (datetime_now_isoformat w2) as [now w3].
    do 3 eexists. split; [reflexivity |].
    cbn. repeat split; discriminate.
Qed.

End BatchProperties.

Section MainProperties.

Context {W : Type} `{Collaborators W}.

Variable datetime_now_strftime : pystr -> W -> pystr * W.

(** X22: when the constructor raises, [main] raises the same exception
    and has performed no effect: nothing was read, called or written. *)
Theorem main_constructor_fails (w w1 : W) (e : exn) (t0 : list event) :
  __init__ w = (Raise e, w1, t0) ->
  main datetime_now_strftime w = (Raise e, w1, []) /\ t0 = [].
Proof.
  intros Hi.
  assert (Ht0 : t0 = []).
  { pose proof (init_run w) as Hrun. rewrite Hi in Hrun.
    destruct (twilio_Client _ _ w) as [[[] | e1] w2].
    - destruct (missing_vars w2); [destruct Hrun as (s & Hrun & _) |];
        inversion Hrun; reflexivity.
    - inversion Hrun. reflexivity. }
  subst t0. split; [| reflexivity].
  unfold main. unfold bind at 1. rewrite Hi. reflexivity.
Qed.

(** X23: when the constructor succeeds, the input table holds numbers and
    the output file [validation_results_<stamp>.csv], named by the time
    read after the construction, accepts every operation, [main] returns,
    having read [phone_numbers.csv] and written to that file the header
    and one flushed row per number, in order. *)
Theorem main_output_file (w w1 w2 w3 : W) (self : PhoneValidator)
    (stamp : pystr) (phones : list pystr) (t0 t1 : list event) :
  __init__ w = (Return self, w1, t0) ->
  datetime_now_strftime (u "%Y%m%d_%H%M%S") w1 = (stamp, w2) ->
  read_phone_numbers self (u "phone_numbers.csv") w2 =
    (Return phones, w3, t1) ->
  phones <> [] ->
  writable (W := W) (u "validation_results_" ++ stamp ++ u ".csv") ->
  exists rows w' t,
    main datetime_now_strftime w = (Return tt, w', t) /\
    output_events t =
      OpenOutput (u "validation_results_" ++ stamp ++ u ".csv")
      :: WriteHeader (u "validation_results_" ++ stamp ++ u ".csv")
           fieldnames_out
      :: row_writes (u "validation_results_" ++ stamp ++ u ".csv") rows /\
    map phone rows = phones /\
    Forall2 (validated (W := W) self) phones rows.
Proof.
  intros Hi Hs Hr Hne Hw. destruct phones as [| p ps]; [contradiction |].
  destruct (read_phone_numbers_run self (u "phone_numbers.csv") w2)
    as (phones0 & w0 & t0' & Hr0 & Hq & _).
  rewrite Hr in Hr0. inversion Hr0. subst phones0 w0 t0'. clear Hr0.
  pose proof Hw as (Hopen & Hhead & _).
  destruct (Hopen w3) as [w4 Ho].
  destruct (Hhead fieldnames_out w4) as [w5 Hh].
  destruct (process_loop_written self
              (u "validation_results_" ++ stamp ++ u ".csv")
              (length (p :: ps)) (p :: ps) Hw 1 [] w5)
    as (rows & w6 & t6 & Hl & Hout & _ & Hm & Hval).
  pose proof (process_phone_list_trace self (u "phone_numbers.csv")
                (u "validation_results_" ++ stamp ++ u ".csv")
                w2 w3 w4 w5 w6 p ps rows t1 t6 Hr Ho Hh Hl) as Hp.
  assert (Ht0 : t0 = []).
  { pose proof (init_run w) as Hrun. rewrite Hi in Hrun.
    destruct (twilio_Client _ _ w) as [[[] | e1] w7].
    - destruct (missing_vars w7); [destruct Hrun as (s & Hrun & _) |];
        inversion Hrun; reflexivity.
    - inversion Hrun. }
  subst t0.
  exists rows, w6. eexists. split.
  - unfold main. unfold bind at 1. rewrite Hi.
    unfold bind at 1. unfold call_total. rewrite Hs. rewrite Hp.
    reflexivity.
  - split; [| split; [exact Hm | exact Hval]].
    cbn [app]. rewrite output_events_app, (quiet_no_output_events t1 Hq).
    unfold output_events in *. cbn [app filter touches_output].
    rewrite filter_app, Hout. cbn. rewrite app_nil_r. reflexivity.
Qed.

End MainProperties.

(** *** The further properties on the scripted collaborators *)

Lemma read_phone_numbers_well_formed_witness :
  exists t,
    read_phone_numbers Scenario.validator (u "phone_numbers.csv")
      Scenario.two_numbers =
      (Return [u "+10000000001"; u "+10000000002"], Scenario.two_numbers, t) /\
    errors_logged t = [].
Proof.
  apply (read_phone_numbers_well_formed Scenario.validator
           (u "phone_numbers.csv") Scenario.two_numbers Scenario.two_numbers
           [u "phone"] [[u "+10000000001"]; [u "+10000000002"]]);
    vm_compute; reflexivity.
Defined.

Lemma read_phone_numbers_trimmed_witness :
  Forall (fun p => p <> [] /\ trimmed p)
         [u "+10000000001"; u "+10000000002"].
Proof.
  eapply (read_phone_numbers_trimmed Scenario.validator
            (u "phone_numbers.csv") Scenario.two_numbers).
  vm_compute. reflexivity.
Defined.

Lemma read_phone_numbers_no_phone_column_witness :
  exists t,
    read_phone_numbers Scenario.validator (u "phone_numbers.csv")
      Scenario.no_phone_column = (Return [], Scenario.no_phone_column, t) /\
    errors_logged t = [].
Proof.
  apply (read_phone_numbers_no_phone_column Scenario.validator
           (u "phone_numbers.csv") Scenario.no_phone_column
           Scenario.no_phone_column [u "name"; u "number"]
           [[u "alice"; u "+10000000001"]]).
  - vm_compute. reflexivity.
  - vm_compute. intros [E | [E | []]]; discriminate.
Defined.

Lemma read_phone_numbers_short_record_witness :
  exists t,
    read_phone_numbers Scenario.validator (u "phone_numbers.csv")
      Scenario.short_row = (Return [], Scenario.short_row, t) /\
    errors_logged t <> [].
Proof.
  apply (read_phone_numbers_short_record Scenario.validator
           (u "phone_numbers.csv") Scenario.short_row Scenario.short_row
           [u "name"; u "phone"]
           [[u "alice"; u "+10000000001"]; [u "bob"]] None);
    vm_compute; reflexivity.
Defined.

Lemma make_call_with_recording_listing_fails_witness :
  exists t,
    make_call_with_recording Scenario.validator (u "+10000000001")
      Scenario.listing_down = (Return (None, None), Scenario.listing_down, t) /\
    sleeps t = [12] /\
    errors_logged t <> [].
Proof.
  eapply (make_call_with_recording_listing_fails Scenario.validator
            (u "+10000000001") (u "CA+10000000001") Scenario.listing_down
            Scenario.listing_down Scenario.listing_down);
    vm_compute; reflexivity.
Defined.

Lemma download_recording_bad_status_witness :
  download_recording Scenario.validator (Some (u "RE+10000000001"))
    Scenario.forbidden_download =
    (Return None, Scenario.forbidden_download,
     [Log LError (u "Не вдалося завантажити запис " ++ u "RE+10000000001")]).
Proof.
  eapply (download_recording_bad_status Scenario.validator
            (u "RE+10000000001") _ Scenario.forbidden_download
            Scenario.forbidden_download Scenario.forbidden_download 403).
  - vm_compute. discriminate.
  - vm_compute. reflexivity.
  - vm_compute. reflexivity.
  - discriminate.
Defined.

Lemma transcribe_audio_removal_fails_witness :
  exists t,
    transcribe_audio Scenario.validator
      (Some (u "recording_RE+10000000001.mp3")) Scenario.removal_denied =
      (Return [], Scenario.removal_denied, t) /\
    errors_logged t =
      [u "Помилка розпізнавання: "
       ++ u "[Errno 13] Permission denied: 'recording_RE+10000000001.mp3'"].
Proof.
  eapply (transcribe_audio_removal_fails Scenario.validator
            (u "recording_RE+10000000001.mp3") Scenario.removal_denied
            Scenario.removal_denied Scenario.removal_denied
            Scenario.removal_denied (u "+10000000001")
            (Some (u "Please Leave Your Message"))
            (Exn OtherException
                 (u "[Errno 13] Permission denied: '"
                  ++ u "recording_RE+10000000001.mp3" ++ u "'"))).
  - vm_compute. discriminate.
  - vm_compute. reflexivity.
  - vm_compute. reflexivity.
  - vm_compute. reflexivity.
  - vm_compute. reflexivity.
Defined.

Lemma transcribe_audio_success_witness :
  exists w' t,
    transcribe_audio Scenario.validator
      (Some (u "recording_RE+10000000001.mp3")) Scenario.downloaded =
      (Return (u "please leave your message"), w', t) /\
    errors_logged t = [].
Proof.
  eexists.
  eapply (transcribe_audio_success Scenario.validator
            (u "recording_RE+10000000001.mp3") Scenario.downloaded
            Scenario.downloaded Scenario.downloaded _ _
            (Some (u "Please Leave Your Message"))).
  - vm_compute. discriminate.
  - vm_compute. reflexivity.
  - vm_compute. reflexivity.
  - vm_compute. reflexivity.
  - vm_compute. reflexivity.
Defined.

Lemma validate_phone_number_call_failed_witness :
  exists res w' t,
    validate_phone_number Scenario.validator (u "+10000000002")
      Scenario.two_numbers = (Return res, w', t) /\
    phone res = u "+10000000002" /\
    timestamp res = u "2024-01-01T00:00:00".
Proof.
  destruct (validate_phone_number_call_failed Scenario.validator
              (u "+10000000002") Scenario.two_numbers Scenario.two_numbers
              (None, None)
              [Log LError (u "Помилка Twilio для " ++ u "+10000000002"
                           ++ u ": "
                           ++ u "HTTP 400 error: Unable to create record")])
    as (res & Hv & Hp & Ht).
  - vm_compute. reflexivity.
  - left. reflexivity.
  - exists res. do 2 eexists. split; [exact Hv |]. split; [exact Hp |].
    rewrite Ht. vm_compute. reflexivity.
Defined.

Lemma validate_phone_number_valid_row_witness :
  exists res w' t,
    validate_phone_number Scenario.validator (u "+10000000001")
      Scenario.two_numbers = (Return res, w', t) /\
    truthy_opt (call_sid res) = true /\
    is_valid_number Scenario.validator (transcribed_text res) = true /\
    (3 <= length (strip (transcribed_text res)))%nat.
Proof.
  do 3 eexists. split; [vm_compute; reflexivity |].
  eapply (validate_phone_number_valid_row Scenario.validator
            (u "+10000000001") Scenario.two_numbers);
    vm_compute; reflexivity.
Defined.

Lemma init_success_witness :
  truthy_opt (os_getenv (u "OPENAI_API_KEY") Scenario.two_numbers) = true /\
  twilio_phone_number Scenario.validator =
    os_getenv (u "TWILIO_PHONE_NUMBER") Scenario.two_numbers /\
  call_delay Scenario.validator = 2 /\
  recording_duration Scenario.validator = 10.
Proof.
  destruct (init_success Scenario.two_numbers Scenario.two_numbers
              Scenario.validator [])
    as (_ & Hv & _ & _ & Hn & _ & _ & Hd & Hr).
  - vm_compute. reflexivity.
  - split; [| split; [exact Hn | split; [exact Hd | exact Hr]]].
    apply Hv. unfold required_vars. cbn [map In]. auto 6.
Defined.

Lemma init_lists_all_missing_witness :
  __init__ Scenario.no_number_no_key =
    (Raise (Exn ValueError
                (u "Відсутні змінні середовища: "
                 ++ join (u ", ") [u "TWILIO_PHONE_NUMBER";
                                   u "OPENAI_API_KEY"])),
     Scenario.no_number_no_key, []).
Proof.
  refine (proj1 (init_lists_all_missing Scenario.no_number_no_key
                   Scenario.no_number_no_key _ _)).
  - vm_compute. reflexivity.
  - vm_compute. discriminate.
Defined.

(** An output file of the scripted file system that accepts every
    operation. *)
Ltac output_accepts :=
  unfold writable; split; [| split; [| split]]; intros; eexists;
  reflexivity.




Lemma validate_phone_number_empty_transcript_witness :
  exists res w' t,
    validate_phone_number Scenario.validator (u "+10000000001")
      Scenario.forbidden_download = (Return res, w', t) /\
    transcribed_text res = [] /\
    status res = INVALID /\ status res <> ERROR /\ status res <> VALID /\
    call_sid res = Some (u "CA+10000000001").
Proof.
  eapply (validate_phone_number_empty_transcript Scenario.validator
            (u "+10000000001") Scenario.forbidden_download
            Scenario.forbidden_download
            (Some (u "CA+10000000001"), Some (u "RE+10000000001"))).
  - vm_compute. reflexivity.
  - reflexivity.
  - eapply download_raised; [reflexivity | vm_compute; exact I].
Defined.

Lemma process_phone_list_never_raises_witness :
  exists w' t,
    process_phone_list Scenario.validator (u "phone_numbers.csv")
      (u "validation_results.csv") Scenario.two_numbers = (Return tt, w', t).
Proof.
  apply (process_phone_list_never_raises Scenario.validator
           (u "phone_numbers.csv") (u "validation_results.csv")
           Scenario.two_numbers).
  output_accepts.
Defined.

Lemma process_phone_list_open_fails_witness :
  exists t1,
    process_phone_list Scenario.validator (u "phone_numbers.csv")
      (u "nodir/out.csv") Scenario.two_numbers =
      (Raise (Exn FileNotFoundError
                  (u "[Errno 2] No such file or directory: 'nodir/out.csv'")),
       Scenario.two_numbers, t1) /\
    output_events t1 = [] /\
    sleeps t1 = [].
Proof.
  eexists.
  eapply (process_phone_list_open_fails Scenario.validator
            (u "phone_numbers.csv") (u "nodir/out.csv")
            Scenario.two_numbers Scenario.two_numbers Scenario.two_numbers
            [u "+10000000001"; u "+10000000002"]);
    [vm_compute; reflexivity | discriminate | vm_compute; reflexivity].
Defined.

Lemma process_phone_list_pauses_witness :
  exists rows w' t,
    process_phone_list Scenario.validator (u "phone_numbers.csv")
      (u "validation_results.csv") Scenario.two_numbers = (Return tt, w', t) /\
    filter (row_or_pause 2) t =
      rows_and_pauses (u "validation_results.csv") 2 rows /\
    length rows = 2.
Proof.
  refine (process_phone_list_pauses Scenario.validator
            (u "phone_numbers.csv") (u "validation_results.csv")
            Scenario.two_numbers Scenario.two_numbers
            [u "+10000000001"; u "+10000000002"] _ _ _ _);
    [discriminate | vm_compute; reflexivity | output_accepts].
Defined.

Lemma process_phone_list_summary_witness :
  exists rows w' t0,
    process_phone_list Scenario.validator (u "phone_numbers.csv")
      (u "validation_results.csv") Scenario.two_numbers =
      (Return tt, w', t0 ++ summary_logs (u "validation_results.csv") rows) /\
    rows_written (t0 ++ summary_logs (u "validation_results.csv") rows)
    = rows /\
    count_status VALID rows + count_status INVALID rows
    + count_status ERROR rows = 2.
Proof.
  refine (process_phone_list_summary Scenario.validator
            (u "phone_numbers.csv") (u "validation_results.csv")
            Scenario.two_numbers Scenario.two_numbers
            [u "+10000000001"; u "+10000000002"] _ _ _ _);
    [vm_compute; reflexivity | discriminate | output_accepts].
Defined.

Lemma main_constructor_fails_witness :
  main Scenario.strftime Scenario.no_account_sid =
    (Raise (Exn ValueError
                (u "Відсутні змінні середовища: " ++ u "TWILIO_ACCOUNT_SID")),
     Scenario.no_account_sid, []).
Proof.
  refine (proj1 (main_constructor_fails Scenario.strftime
                   Scenario.no_account_sid Scenario.no_account_sid
                   (Exn ValueError
                        (u "Відсутні змінні середовища: "
                         ++ u "TWILIO_ACCOUNT_SID")) [] _)).
  vm_compute. reflexivity.
Defined.

Lemma main_output_file_witness :
  exists rows w' t,
    main Scenario.strftime Scenario.two_numbers = (Return tt, w', t) /\
    output_events t =
      OpenOutput (u "validation_results_" ++ u "20240101_000000" ++ u ".csv")
      :: WriteHeader
           (u "validation_results_" ++ u "20240101_000000" ++ u ".csv")
           fieldnames_out
      :: row_writes
           (u "validation_results_" ++ u "20240101_000000" ++ u ".csv") rows /\
    map phone rows = [u "+10000000001"; u "+10000000002"] /\
    Forall2 (validated (W := Scenario.world) Scenario.validator)
            [u "+10000000001"; u "+10000000002"] rows.
Proof.
  eapply (main_output_file Scenario.strftime Scenario.two_numbers
            Scenario.two_numbers Scenario.two_numbers Scenario.two_numbers
            Scenario.validator (u "20240101_000000")
            [u "+10000000001"; u "+10000000002"] []);
    [vm_compute; reflexivity | vm_compute; reflexivity
    | vm_compute; reflexivity | discriminate | output_accepts].
Defined.

